(** * Mailbox keep-alive monitor: the Lambda handler and its properties

    A shallow embedding of [src/lambda/mailbox-keepalive-monitor.py].

    The handler reads three environment variables, fetches one DynamoDB
    item, parses its timestamp, compares its age with a threshold and
    publishes one SNS message when the timestamp is too old.

    Conventions of the embedding:
    - a Python [str] is a [string]; its characters stand for the code
      points U+0000 .. U+00FF;
    - a Python [int] is a [Z];
    - [os.environ] and the DynamoDB item are finite maps ([gmap]);
    - exceptions, [print] and the two AWS calls are effects of a small
      monad [io]: a computation extends a chronological trace of events
      and ends by returning a value or by raising an exception;
    - what the outside world answers (the environment, the store, the
      topic, the clock) is collected in a record [world]. *)

From Stdlib Require Import ZArith Ascii String List Bool Lia.
From stdpp Require Import base option gmap strings pretty.

Local Open Scope string_scope.
Local Open Scope Z_scope.

(** ** Exceptions and outcomes *)

(** The exception classes that can occur while the handler runs.  Each
    carries the text that [str(e)] yields.  [BotoCoreError] stands for the
    botocore exceptions that are not [ClientError] (connection failures,
    time-outs and the like). *)
Inductive exn : Type :=
  | ClientError (msg : string)
  | BotoCoreError (msg : string)
  | ValueError (msg : string)
  | TypeError (msg : string)
  | OverflowError (msg : string).

Definition is_ClientError (e : exn) : bool :=
  match e with ClientError _ => true | _ => false end.

Definition is_ValueError (e : exn) : bool :=
  match e with ValueError _ => true | _ => false end.

Definition str_exn (e : exn) : string :=
  match e with
  | ClientError m | BotoCoreError m | ValueError m
  | TypeError m | OverflowError m => m
  end.

(** How an expression or a call ends. *)
Inductive outcome (A : Type) : Type :=
  | Returned (a : A)
  | Raised (e : exn).
Arguments Returned {A} a.
Arguments Raised {A} e.

(** ** Characters *)

Definition code (c : ascii) : Z := Z.of_N (N_of_ascii c).

(** [\d] of the [re] module and the decimal digits of [int()], on the
    code points below 256. *)
Definition is_digit (c : ascii) : bool := (48 <=? code c) && (code c <=? 57).

Definition digit_value (c : ascii) : Z := code c - 48.

(** [Py_UNICODE_ISSPACE] on the code points below 256. *)
Definition is_space (c : ascii) : bool :=
  let n := code c in
  ((9 <=? n) && (n <=? 13)) || ((28 <=? n) && (n <=? 32))
  || (n =? 133) || (n =? 160).

Definition in_range (lo hi : ascii) (c : ascii) : bool :=
  (code lo <=? code c) && (code c <=? code hi).

(** ** [int(s)] on a string, base 10 *)

Module PyInt.

(** [sys.int_info.default_max_str_digits] *)
Definition max_str_digits : nat := 4300.

Fixpoint lstrip (s : string) : string :=
  match s with
  | String c r => if is_space c then lstrip r else s
  | EmptyString => EmptyString
  end.

(** The digit scan of [PyLong_FromString]: digits, with single
    underscores between them.  [prev_us] tells whether the previous
    character was an underscore.  Yields the value, the number of digit
    characters and the unread rest. *)
Fixpoint scan (prev_us : bool) (acc : Z) (digits : nat) (s : string)
  : option (Z * nat * string) :=
  match s with
  | String c r =>
      if is_digit c then scan false (10 * acc + digit_value c) (S digits) r
      else if Ascii.eqb c "_" then
        if prev_us then None else scan true acc digits r
      else if prev_us then None else Some (acc, digits, s)
  | EmptyString => if prev_us then None else Some (acc, digits, s)
  end.

Definition sign_and_rest (s : string) : Z * string :=
  match s with
  | String "+" r => (1, r)
  | String "-" r => (-1, r)
  | _ => (1, s)
  end.

Definition invalid_literal (s : string) : exn :=
  ValueError ("invalid literal for int() with base 10: " +:+ s).

Definition int (s : string) : outcome Z :=
  let '(sign, body) := sign_and_rest (lstrip s) in
  match body with
  | String "_" _ => Raised (invalid_literal s)
  | _ =>
      match scan false 0 0%nat body with
      | None => Raised (invalid_literal s)
      | Some (v, digits, rest) =>
          if (digits =? 0)%nat then Raised (invalid_literal s)
          else if (max_str_digits <? digits)%nat then
            Raised (ValueError
                      "Exceeds the limit (4300 digits) for integer string conversion")
          else
            match lstrip rest with
            | EmptyString => Returned (sign * v)
            | _ => Raised (invalid_literal s)
            end
      end
  end.

End PyInt.

(** ** Dates: the proleptic Gregorian calendar of [datetime] *)

Module Calendar.

Definition MINYEAR : Z := 1.
Definition MAXYEAR : Z := 9999.

Definition is_leap (year : Z) : bool :=
  (year mod 4 =? 0) && (negb (year mod 100 =? 0) || (year mod 400 =? 0)).

Definition days_in_month (year month : Z) : Z :=
  match month with
  | 1 | 3 | 5 | 7 | 8 | 10 | 12 => 31
  | 4 | 6 | 9 | 11 => 30
  | 2 => if is_leap year then 29 else 28
  | _ => 0
  end.

(** Number of days before January 1st of [year]. *)
Definition days_before_year (year : Z) : Z :=
  let y := year - 1 in
  y * 365 + y / 4 - y / 100 + y / 400.

(** Number of days in [year] before the first day of [month]. *)
Definition days_before_month (year month : Z) : Z :=
  match month with
  | 1 => 0 | 2 => 31 | 3 => 59 | 4 => 90 | 5 => 120 | 6 => 151
  | 7 => 181 | 8 => 212 | 9 => 243 | 10 => 273 | 11 => 304 | _ => 334
  end + (if (2 <? month) && is_leap year then 1 else 0).

(** [date.toordinal()]: 0001-01-01 is day 1. *)
Definition ymd2ord (year month day : Z) : Z :=
  days_before_year year + days_before_month year month + day.

(** [date.weekday()]: Monday is 0, Sunday is 6. *)
Definition weekday (year month day : Z) : Z :=
  (ymd2ord year month day + 6) mod 7.

(** The year of an ordinal, as [_ord2ymd] computes it. *)
Definition ord2year (ordinal : Z) : Z :=
  let n := ordinal - 1 in
  let n400 := n / 146097 in
  let n := n mod 146097 in
  let n100 := n / 36524 in
  let n := n mod 36524 in
  let n4 := n / 1461 in
  let n := n mod 1461 in
  let n1 := n / 365 in
  let year := n400 * 400 + 1 + n100 * 100 + n4 * 4 + n1 in
  if (n1 =? 4) || (n100 =? 4) then year - 1 else year.

Definition valid_date (year month day : Z) : bool :=
  (MINYEAR <=? year) && (year <=? MAXYEAR)
  && (1 <=? month) && (month <=? 12)
  && (1 <=? day) && (day <=? days_in_month year month).

End Calendar.

(** ** Time zones as pytz has them *)

(** One [tzinfo] instance of a pytz [DstTzInfo] zone.  pytz keeps one
    instance for each triple (UTC offset, DST offset, abbreviation) of a
    zone, so comparing the triples is comparing the objects ([is]).
    Offsets are in seconds. *)
Record tzinfo : Type := mk_tzinfo {
  tz_utcoffset : Z;
  tz_dst : Z;
  tz_name : string
}.

#[global] Instance tzinfo_eq_dec : EqDecision tzinfo.
Proof. solve_decision. Defined.

Module US_Central.

(** The first entry of the zone's table, local mean time of Chicago,
    which pytz rounds to the minute: UTC-5:51. *)
Definition LMT : tzinfo := mk_tzinfo (-21060) 0 "LMT".
Definition CST : tzinfo := mk_tzinfo (-21600) 0 "CST".
Definition CDT : tzinfo := mk_tzinfo (-18000) 3600 "CDT".

(** [pytz.timezone('US/Central')]: the object pytz hands out is the
    instance of the first entry of the table.  Attaching it with
    [datetime.replace(tzinfo=...)] performs no look-up, so the datetime
    gets the offset of [LMT]. *)
Definition timezone : tzinfo := LMT.

(** The day (1..14) of the [n]-th Sunday of a month, [n] counted from 0. *)
Definition nth_sunday (year month n : Z) : Z :=
  let first := 1 + (6 - Calendar.weekday year month 1) mod 7 in
  first + 7 * n.

(** Daylight-saving time in UTC seconds counted from ordinal 0: from the
    second Sunday of March, 02:00 CST (08:00 UTC), to the first Sunday of
    November, 02:00 CDT (07:00 UTC).  This is the rule of the zone's
    table for the years 2007 to 2037. *)
Definition dst_start_utc (year : Z) : Z :=
  Calendar.ymd2ord year 3 (nth_sunday year 3 1) * 86400 + 8 * 3600.
Definition dst_end_utc (year : Z) : Z :=
  Calendar.ymd2ord year 11 (nth_sunday year 11 0) * 86400 + 7 * 3600.

(** The instance in force at a UTC time ([tzinfo.fromutc]). *)
Definition instance_at_utc (utc_seconds : Z) : tzinfo :=
  let year := Calendar.ord2year (utc_seconds / 86400) in
  if (dst_start_utc year <=? utc_seconds) && (utc_seconds <? dst_end_utc year)
  then CDT else CST.

(** The same rule on the wall clock: DST from the second Sunday of March
    03:00 to the first Sunday of November 01:00; a wall time that occurs
    twice or never is read as standard time ([is_dst=False]). *)
Definition instance_at_wall (wall_seconds : Z) : tzinfo :=
  let year := Calendar.ord2year (wall_seconds / 86400) in
  let start := Calendar.ymd2ord year 3 (nth_sunday year 3 1) * 86400 + 3 * 3600 in
  let stop := Calendar.ymd2ord year 11 (nth_sunday year 11 0) * 86400 + 1 * 3600 in
  if (start <=? wall_seconds) && (wall_seconds <? stop) then CDT else CST.

End US_Central.

(** ** [datetime] and [timedelta] *)

(** A [datetime] is kept as the reading of its wall clock, in microseconds
    counted from midnight of ordinal 0, with the attached [tzinfo] if any.
    A [timedelta] is a number of microseconds. *)
Record datetime : Type := mk_datetime {
  wall_us : Z;
  dt_tzinfo : option tzinfo
}.

Definition datetime_of_fields (year month day hour minute second : Z) : datetime :=
  mk_datetime
    ((((Calendar.ymd2ord year month day * 24 + hour) * 60 + minute) * 60 + second)
     * 1000000)
    None.

(** [dt.replace(tzinfo=tz)]: the fields are kept, the zone is attached. *)
Definition replace_tzinfo (dt : datetime) (tz : tzinfo) : datetime :=
  mk_datetime (wall_us dt) (Some tz).

(** [datetime.now(tz)] for the pytz zone US/Central, from the UTC clock
    (in microseconds): [tz.fromutc] picks the instance in force and shifts
    the wall clock by its offset. *)
Definition datetime_now (utcnow_us : Z) : datetime :=
  let inst := US_Central.instance_at_utc (utcnow_us / 1000000) in
  mk_datetime (utcnow_us + tz_utcoffset inst * 1000000) (Some inst).

(** [a - b] on datetimes ([datetime.__sub__]). *)
Definition datetime_sub (a b : datetime) : outcome Z :=
  let base := wall_us a - wall_us b in
  match dt_tzinfo a, dt_tzinfo b with
  | None, None => Returned base
  | Some ta, Some tb =>
      if decide (ta = tb) then Returned base
      else if tz_utcoffset ta =? tz_utcoffset tb then Returned base
      else Returned (base + (tz_utcoffset tb - tz_utcoffset ta) * 1000000)
  | _, _ =>
      Raised (TypeError "can't subtract offset-naive and offset-aware datetimes")
  end.

(** [timedelta(hours=h)]: the number of days must have magnitude at most
    999999999. *)
Definition timedelta_hours (hours : Z) : outcome Z :=
  let us := hours * 3600 * 1000000 in
  let days := us / 86400000000 in
  if (-999999999 <=? days) && (days <=? 999999999) then Returned us
  else Raised (OverflowError "days; must have magnitude <= 999999999").

(** ** [datetime.strptime(s, '%Y%m%d%H%M%S')] *)

Module Strptime.

(** A character class, an alternative (a sequence of classes) and a
    group (alternatives tried from left to right). *)
Definition cls : Type := ascii -> bool.
Definition alternative : Type := list cls.
Definition group : Type := list alternative.

Definition d : cls := is_digit.
Definition lit (c : ascii) : cls := Ascii.eqb c.
Definition rng (lo hi : ascii) : cls := in_range lo hi.

(** The regular expressions [_strptime] uses for the six directives. *)
Definition re_Y : group := [[d; d; d; d]].
Definition re_m : group :=
  [[lit "1"; rng "0" "2"]; [lit "0"; rng "1" "9"]; [rng "1" "9"]].
Definition re_d : group :=
  [[lit "3"; rng "0" "1"]; [rng "1" "2"; d]; [lit "0"; rng "1" "9"];
   [rng "1" "9"]; [lit " "; rng "1" "9"]].
Definition re_H : group := [[lit "2"; rng "0" "3"]; [rng "0" "1"; d]; [d]].
Definition re_M : group := [[rng "0" "5"; d]; [d]].
Definition re_S : group := [[lit "6"; rng "0" "1"]; [rng "0" "5"; d]; [d]].

Definition format_regex : list group := [re_Y; re_m; re_d; re_H; re_M; re_S].

(** Match a sequence of classes at the head of [s]: the matched text and
    the rest. *)
Fixpoint match_alternative (a : alternative) (s : string)
  : option (string * string) :=
  match a with
  | [] => Some (EmptyString, s)
  | k :: a' =>
      match s with
      | String c r =>
          if k c then
            match match_alternative a' r with
            | Some (m, rest) => Some (String c m, rest)
            | None => None
            end
          else None
      | EmptyString => None
      end
  end.

(** [re.match] on a sequence of groups: the first match in the order of
    the backtracking search.  Yields the text of every group and the
    unread rest. *)
Fixpoint match_groups (gs : list group) (s : string)
  : option (list string * string) :=
  match gs with
  | [] => Some ([], s)
  | g :: gs' =>
      (fix try_alternatives (alts : list alternative) :=
         match alts with
         | [] => None
         | a :: alts' =>
             match match_alternative a s with
             | Some (m, rest) =>
                 match match_groups gs' rest with
                 | Some (ms, r) => Some (m :: ms, r)
                 | None => try_alternatives alts'
                 end
             | None => try_alternatives alts'
             end
         end) g
  end.

Definition no_match (s : string) : exn :=
  ValueError ("time data does not match format '%Y%m%d%H%M%S': " +:+ s).

(** The six fields as integers, or the [ValueError] of [_strptime]. *)
Definition fields (s : string) : outcome (Z * Z * Z * Z * Z * Z) :=
  match match_groups format_regex s with
  | None => Raised (no_match s)
  | Some (texts, rest) =>
      match rest with
      | String _ _ => Raised (ValueError ("unconverted data remains: " +:+ rest))
      | EmptyString =>
          match map PyInt.int texts with
          | [Returned year; Returned month; Returned day;
             Returned hour; Returned minute; Returned second] =>
              Returned (year, month, day, hour, minute, second)
          | _ => Raised (no_match s)
          end
      end
  end.

(** [datetime.strptime(s, '%Y%m%d%H%M%S')] on a string: the date must
    exist and the second must be below 60. *)
Definition strptime_str (s : string) : outcome datetime :=
  match fields s with
  | Raised e => Raised e
  | Returned (year, month, day, hour, minute, second) =>
      if negb (Calendar.valid_date year month day) then
        Raised (ValueError "day is out of range for month")
      else if negb (second <=? 59) then
        Raised (ValueError "second must be in 0..59")
      else Returned (datetime_of_fields year month day hour minute second)
  end.

End Strptime.

(** ** The store, the topic and the effects of the handler *)

(** A DynamoDB attribute as the boto3 resource hands it to Python: only a
    string attribute is a [str].  (Lists, maps and sets are left out: like
    the other cases that are not [AttrS], they are not a [str].) *)
Inductive attr : Type :=
  | AttrS (s : string)
  | AttrN (decimal : string)
  | AttrB (bytes : string)
  | AttrBOOL (b : bool)
  | AttrNULL.

(** The answer of [get_item]: a dictionary that has the key ['Item'] when
    an item was found. *)
Record response : Type := mk_response {
  Item : option (gmap string attr)
}.

(** What the handler does that can be seen from outside, in order. *)
Inductive event : Type :=
  | EvPrint (text : string)
  | EvGetItem (table : string) (key : gmap string attr)
  | EvPublish (topic_arn message subject : string).

(** What the outside answers during one invocation. *)
Record world : Type := mk_world {
  environ : gmap string string;
  event_text : string;                 (* [str(event)] *)
  get_item_answer : string -> gmap string attr -> outcome response;
  publish_answer : string -> string -> string -> outcome unit;
  utcnow_us : Z                        (* the clock: UTC, in microseconds *)
}.

(** A computation extends the trace and returns or raises. *)
Definition io (A : Type) : Type := list event -> outcome A * list event.

Definition ret {A} (a : A) : io A := fun tr => (Returned a, tr).
Definition raise {A} (e : exn) : io A := fun tr => (Raised e, tr).
Definition bind {A B} (m : io A) (k : A -> io B) : io B :=
  fun tr =>
    match m tr with
    | (Returned a, tr') => k a tr'
    | (Raised e, tr') => (Raised e, tr')
    end.
Definition emit (ev : event) : io unit := fun tr => (Returned tt, (tr ++ [ev])%list).
Definition lift {A} (o : outcome A) : io A := fun tr => (o, tr).

(** [try: body except C as e: handler(e)] for the exception class [C]. *)
Definition try_except {A} (body : io A) (C : exn -> bool) (handler : exn -> io A)
  : io A :=
  fun tr =>
    match body tr with
    | (Raised e, tr') => if C e then handler e tr' else (Raised e, tr')
    | r => r
    end.

Declare Scope io_scope.
Delimit Scope io_scope with io.
Notation "x <- m ;; k" := (bind m (fun x => k))
  (at level 100, m at next level, right associativity) : io_scope.
Notation "m ;; k" := (bind m (fun _ => k))
  (at level 100, right associativity) : io_scope.

Definition print (text : string) : io unit := emit (EvPrint text).

(** [table.get_item(Key=key)] *)
Definition get_item (w : world) (table : string) (key : gmap string attr)
  : io response :=
  (emit (EvGetItem table key) ;; lift (get_item_answer w table key))%io.

(** [sns.publish(TopicArn=..., Message=..., Subject=...)] *)
Definition publish (w : world) (topic_arn message subject : string) : io unit :=
  (emit (EvPublish topic_arn message subject) ;;
   lift (publish_answer w topic_arn message subject))%io.

(** [datetime.datetime.strptime(v, '%Y%m%d%H%M%S')] on an attribute. *)
Definition strptime (v : attr) : outcome datetime :=
  match v with
  | AttrS s => Strptime.strptime_str s
  | _ => Raised (TypeError "strptime() argument 1 must be str")
  end.

(** ** The handler *)

(** [not x] on the result of [os.environ.get]: true on [None] and on the
    empty string. *)
Definition py_not (x : option string) : bool :=
  match x with
  | None => true
  | Some s => String.eqb s ""
  end.

Definition ENV_ERROR : string :=
  "Error: Environment variables DDB_TABLE_NAME, SNS_ARN, and THRESHOLD_HOURS must be set.".
Definition THRESHOLD_ERROR : string :=
  "Error: Invalid value for THRESHOLD_HOURS. It must be an integer.".
Definition SENT : string := "SNS notification sent".
Definition WITHIN : string := "Timestamp is within the threshold".
Definition NO_TIMESTAMP : string := "No timestamp found in DynamoDB".
Definition ERROR_OCCURRED : string := "Error occurred".
Definition SUBJECT : string := "Mailbox State Alert".

Definition alert_message (threshold_hours : Z) : string :=
  "The timestamp in DynamoDB is over " +:+ pretty threshold_hours +:+ " hours old.".

(** The body of the second [try] (lines 59 to 79). *)
Definition guarded_block (w : world) (ddb_table_name sns_arn : string)
    (threshold_hours : Z) : io string :=
  (response <- get_item w ddb_table_name {[ "id" := AttrS "open" ]} ;;
   match Item response with
   | Some item =>
       match item !! "timestamp" with
       | Some timestamp_str =>
           timestamp <- lift (strptime timestamp_str) ;;
           let timestamp := replace_tzinfo timestamp US_Central.timezone in
           elapsed <- lift (datetime_sub (datetime_now (utcnow_us w)) timestamp) ;;
           threshold <- lift (timedelta_hours threshold_hours) ;;
           if threshold <? elapsed then
             publish w sns_arn (alert_message threshold_hours) SUBJECT ;;
             ret SENT
           else ret WITHIN
       | None => ret NO_TIMESTAMP
       end
   | None => ret NO_TIMESTAMP
   end)%io.

(** [lambda_handler(event, context)].  The calls [boto3.resource],
    [boto3.client] and [dynamodb.Table] of lines 54 to 56 build local
    handles and contact no service; they leave no event. *)
Definition lambda_handler (w : world) : io string :=
  (print (event_text w) ;;
   let ddb_table_name := environ w !! "DDB_TABLE_NAME" in
   let sns_arn := environ w !! "SNS_ARN" in
   let threshold_hours_env := environ w !! "THRESHOLD_HOURS" in
   if py_not ddb_table_name || py_not sns_arn || py_not threshold_hours_env then
     ret ENV_ERROR
   else
     match PyInt.int (default "" threshold_hours_env) with
     | Raised e => if is_ValueError e then ret THRESHOLD_ERROR else raise e
     | Returned threshold_hours =>
         try_except
           (guarded_block w (default "" ddb_table_name) (default "" sns_arn)
              threshold_hours)
           is_ClientError
           (fun e => print ("Error: " +:+ str_exn e) ;; ret ERROR_OCCURRED)
     end)%io.

(** One invocation: the handler run on the empty trace. *)
Definition invoke (w : world) : outcome string * list event := lambda_handler w [].

(** ** Vocabulary of the properties *)

(** The key the handler reads. *)
Definition OPEN_KEY : gmap string attr := {[ "id" := AttrS "open" ]}.

Definition is_store_read (ev : event) : bool :=
  match ev with EvGetItem _ _ => true | _ => false end.
Definition is_publish (ev : event) : bool :=
  match ev with EvPublish _ _ _ => true | _ => false end.

(** How many events of a kind a trace has. *)
Definition count_events (p : event -> bool) (tr : list event) : nat :=
  length (List.filter p tr).

(** No store read and no publish: nothing outside was contacted. *)
Definition no_external_call (tr : list event) : Prop :=
  count_events is_store_read tr = 0%nat /\ count_events is_publish tr = 0%nat.

(** The three variables are set, each to a value that is not empty. *)
Definition configured (w : world) (ddb_table_name sns_arn threshold_hours_env : string)
  : Prop :=
  environ w !! "DDB_TABLE_NAME" = Some ddb_table_name /\ ddb_table_name <> ""
  /\ environ w !! "SNS_ARN" = Some sns_arn /\ sns_arn <> ""
  /\ environ w !! "THRESHOLD_HOURS" = Some threshold_hours_env
  /\ threshold_hours_env <> "".

(** The configuration is present and the threshold is the integer
    [threshold_hours]. *)
Definition valid_config (w : world) (ddb_table_name sns_arn : string)
    (threshold_hours : Z) : Prop :=
  exists threshold_hours_env,
    configured w ddb_table_name sns_arn threshold_hours_env
    /\ PyInt.int threshold_hours_env = Returned threshold_hours.

(** The store read succeeds and the item carries the attribute [v] under
    ['timestamp']. *)
Definition store_has_timestamp (w : world) (ddb_table_name : string) (v : attr)
  : Prop :=
  exists item,
    get_item_answer w ddb_table_name OPEN_KEY = Returned (mk_response (Some item))
    /\ item !! "timestamp" = Some v.

(** The store read succeeds but there is no item, or the item has no
    ['timestamp']. *)
Definition store_has_no_timestamp (w : world) (ddb_table_name : string) : Prop :=
  get_item_answer w ddb_table_name OPEN_KEY = Returned (mk_response None)
  \/ exists item,
       get_item_answer w ddb_table_name OPEN_KEY = Returned (mk_response (Some item))
       /\ item !! "timestamp" = None.

(** The absolute instant of a datetime, in UTC microseconds: the wall
    clock minus the offset of the attached zone. *)
Definition utc_instant (dt : datetime) : Z :=
  match dt_tzinfo dt with
  | Some tz => wall_us dt - tz_utcoffset tz * 1000000
  | None => wall_us dt
  end.

(** The instant the handler compares with the clock, for a parsed
    timestamp. *)
Definition handler_instant (timestamp : datetime) : Z :=
  utc_instant (replace_tzinfo timestamp US_Central.timezone).

(** The elapsed time of the handler: now minus that instant. *)
Definition elapsed_us (w : world) (timestamp : datetime) : Z :=
  utcnow_us w - handler_instant timestamp.

(** The threshold in microseconds. *)
Definition threshold_us (threshold_hours : Z) : Z := threshold_hours * 3600 * 1000000.

(** After the spec: the US/Central civil-time interpretation of a parsed
    timestamp, daylight-saving time included ([tz.localize] of pytz): the
    wall clock minus the offset in force at that wall time. *)
Definition civil_instant (timestamp : datetime) : Z :=
  wall_us timestamp
  - tz_utcoffset (US_Central.instance_at_wall (wall_us timestamp / 1000000)) * 1000000.

(** After the spec: the true civil elapsed time. *)
Definition civil_elapsed_us (w : world) (timestamp : datetime) : Z :=
  utcnow_us w - civil_instant timestamp.

(** [needle in s] *)
Fixpoint contains (needle s : string) : bool :=
  String.prefix needle s
  || match s with
     | String _ r => contains needle r
     | EmptyString => false
     end.

(** The world with another environment. *)
Definition with_environ (w : world) (env : gmap string string) : world :=
  mk_world env (event_text w) (get_item_answer w) (publish_answer w) (utcnow_us w).

(** ** Concrete invocations *)

Module Sample.

Definition TABLE : string := "mailbox".
Definition TOPIC : string := "arn:aws:sns:us-east-1:123456789012:mailbox".

Definition env (threshold : string) : gmap string string :=
  {[ "DDB_TABLE_NAME" := TABLE; "SNS_ARN" := TOPIC;
     "THRESHOLD_HOURS" := threshold ]}.

(** The UTC clock at a date and time of day. *)
Definition clock (year month day hour minute second : Z) : Z :=
  wall_us (datetime_of_fields year month day hour minute second).

Definition item_with (v : attr) : gmap string attr :=
  {[ "id" := AttrS "open"; "timestamp" := v ]}.
Definition item_without : gmap string attr := {[ "id" := AttrS "open" ]}.

Definition store_item (item : gmap string attr)
  : string -> gmap string attr -> outcome response :=
  fun _ _ => Returned (mk_response (Some item)).
Definition store_empty : string -> gmap string attr -> outcome response :=
  fun _ _ => Returned (mk_response None).
Definition store_fails (e : exn)
  : string -> gmap string attr -> outcome response :=
  fun _ _ => Raised e.

Definition topic_ok : string -> string -> string -> outcome unit :=
  fun _ _ _ => Returned tt.
Definition topic_fails (e : exn) : string -> string -> string -> outcome unit :=
  fun _ _ _ => Raised e.

Definition ACCESS_DENIED : string :=
  "An error occurred (AccessDeniedException) when calling the GetItem operation".
Definition PUBLISH_DENIED : string :=
  "An error occurred (AuthorizationError) when calling the Publish operation".

(** Noon in Chicago on 15 January 2024 (CST): 18:00 UTC. *)
Definition winter_noon : Z := clock 2024 1 15 18 0 0.
(** Noon in Chicago on 15 July 2024 (CDT): 17:00 UTC. *)
Definition summer_noon : Z := clock 2024 7 15 17 0 0.

(** Threshold 2, timestamp of 09:00 on a winter day, read at noon. *)
Definition stale : world :=
  mk_world (env "2") "{}" (store_item (item_with (AttrS "20240115090000")))
    topic_ok winter_noon.

(** Threshold 2, timestamp of 11:00, read at noon. *)
Definition fresh : world :=
  mk_world (env "2") "{}" (store_item (item_with (AttrS "20240115110000")))
    topic_ok winter_noon.

(** The handler's elapsed time is exactly two hours: 12:00 CST is 18:00
    UTC, and 10:09 read at UTC-5:51 is 16:00 UTC. *)
Definition boundary : world :=
  mk_world (env "2") "{}" (store_item (item_with (AttrS "20240115100900")))
    topic_ok winter_noon.

(** As [stale], but the topic refuses the message. *)
Definition stale_publish_denied : world :=
  mk_world (env "2") "{}" (store_item (item_with (AttrS "20240115090000")))
    (topic_fails (ClientError PUBLISH_DENIED)) winter_noon.

(** As [stale], but the connection to the topic fails. *)
Definition stale_publish_unreachable : world :=
  mk_world (env "2") "{}" (store_item (item_with (AttrS "20240115090000")))
    (topic_fails (BotoCoreError "Could not connect to the endpoint URL"))
    winter_noon.

(** As [fresh], with a threshold no [timedelta] can hold. *)
Definition fresh_huge_threshold : world :=
  mk_world (env "99999999999") "{}"
    (store_item (item_with (AttrS "20240115110000"))) topic_ok winter_noon.

(** Civil age 1 h 55 min in winter: timestamp of 10:05 read at noon. *)
Definition winter_1h55 : world :=
  mk_world (env "2") "{}" (store_item (item_with (AttrS "20240115100500")))
    topic_ok winter_noon.

(** Civil age 2 h 30 min in summer: timestamp of 09:30 read at noon. *)
Definition summer_2h30 : world :=
  mk_world (env "2") "{}" (store_item (item_with (AttrS "20240715093000")))
    topic_ok summer_noon.

Definition malformed : world :=
  mk_world (env "2") "{}" (store_item (item_with (AttrS "2024-01-15 09:00")))
    topic_ok winter_noon.

Definition no_item : world :=
  mk_world (env "2") "{}" store_empty topic_ok winter_noon.
Definition no_field : world :=
  mk_world (env "2") "{}" (store_item item_without) topic_ok winter_noon.

Definition store_denied : world :=
  mk_world (env "2") "{}" (store_fails (ClientError ACCESS_DENIED)) topic_ok
    winter_noon.
Definition store_unreachable : world :=
  mk_world (env "2") "{}"
    (store_fails (BotoCoreError "Could not connect to the endpoint URL"))
    topic_ok winter_noon.

Definition threshold_zero : world :=
  mk_world (env "0") "{}" (store_item (item_with (AttrS "20240115110000")))
    topic_ok winter_noon.

(** No [SNS_ARN]. *)
Definition topic_unset : world :=
  with_environ stale (delete "SNS_ARN" (env "2")).
(** [SNS_ARN] set to the empty string. *)
Definition topic_blank : world :=
  with_environ stale (<[ "SNS_ARN" := "" ]> (env "2")).

(** As [stale], seen through a busier world: one more variable in the
    environment, one more attribute on the item, another event. *)
Definition stale_with_more : world :=
  mk_world (<[ "AWS_REGION" := "us-east-1" ]> (env "2")) "{}"
    (store_item (<[ "owner" := AttrS "mailbox" ]>
                   (item_with (AttrS "20240115090000"))))
    topic_ok winter_noon.

End Sample.

(** ** The runs of the handler *)

Definition with_clock (w : world) (clock_us : Z) : world :=
  mk_world (environ w) (event_text w) (get_item_answer w) (publish_answer w) clock_us.

Definition with_store (w : world)
    (answer : string -> gmap string attr -> outcome response) : world :=
  mk_world (environ w) (event_text w) answer (publish_answer w) (utcnow_us w).

Definition with_event_text (w : world) (text : string) : world :=
  mk_world (environ w) text (get_item_answer w) (publish_answer w) (utcnow_us w).

Definition is_print (ev : event) : bool :=
  match ev with EvPrint _ => true | _ => false end.

(** The calls to AWS of a trace, in order. *)
Definition external_calls (tr : list event) : list event :=
  List.filter (fun ev => negb (is_print ev)) tr.

(** The strings the handler can return. *)
Definition OUTCOMES : list string :=
  [ENV_ERROR; THRESHOLD_ERROR; SENT; WITHIN; NO_TIMESTAMP; ERROR_OCCURRED].

(** The guard of line 44. *)
Definition env_guard (w : world) : bool :=
  py_not (environ w !! "DDB_TABLE_NAME") || py_not (environ w !! "SNS_ARN")
  || py_not (environ w !! "THRESHOLD_HOURS").

(** The eleven ways through the handler, each with the outcome and the
    trace it leaves: the two returns of the configuration checks, then,
    behind a valid configuration, the ways through the guarded block. *)
Inductive path (w : world) : outcome string -> list event -> Prop :=
  | path_env_error :
      env_guard w = true ->
      path w (Returned ENV_ERROR) [EvPrint (event_text w)]
  | path_threshold_error ddb_table_name sns_arn threshold_hours_env e :
      configured w ddb_table_name sns_arn threshold_hours_env ->
      PyInt.int threshold_hours_env = Raised e ->
      path w (Returned THRESHOLD_ERROR) [EvPrint (event_text w)]
  | path_read_caught ddb_table_name sns_arn threshold_hours msg :
      valid_config w ddb_table_name sns_arn threshold_hours ->
      get_item_answer w ddb_table_name OPEN_KEY = Raised (ClientError msg) ->
      path w (Returned ERROR_OCCURRED)
        [EvPrint (event_text w); EvGetItem ddb_table_name OPEN_KEY;
         EvPrint ("Error: " +:+ msg)]
  | path_read_raises ddb_table_name sns_arn threshold_hours e :
      valid_config w ddb_table_name sns_arn threshold_hours ->
      get_item_answer w ddb_table_name OPEN_KEY = Raised e ->
      is_ClientError e = false ->
      path w (Raised e) [EvPrint (event_text w); EvGetItem ddb_table_name OPEN_KEY]
  | path_no_timestamp ddb_table_name sns_arn threshold_hours :
      valid_config w ddb_table_name sns_arn threshold_hours ->
      store_has_no_timestamp w ddb_table_name ->
      path w (Returned NO_TIMESTAMP)
        [EvPrint (event_text w); EvGetItem ddb_table_name OPEN_KEY]
  | path_parse_raises ddb_table_name sns_arn threshold_hours v e :
      valid_config w ddb_table_name sns_arn threshold_hours ->
      store_has_timestamp w ddb_table_name v ->
      strptime v = Raised e ->
      path w (Raised e) [EvPrint (event_text w); EvGetItem ddb_table_name OPEN_KEY]
  | path_overflow ddb_table_name sns_arn threshold_hours v timestamp e :
      valid_config w ddb_table_name sns_arn threshold_hours ->
      store_has_timestamp w ddb_table_name v ->
      strptime v = Returned timestamp ->
      timedelta_hours threshold_hours = Raised e ->
      path w (Raised e) [EvPrint (event_text w); EvGetItem ddb_table_name OPEN_KEY]
  | path_within ddb_table_name sns_arn threshold_hours v timestamp :
      valid_config w ddb_table_name sns_arn threshold_hours ->
      store_has_timestamp w ddb_table_name v ->
      strptime v = Returned timestamp ->
      timedelta_hours threshold_hours = Returned (threshold_us threshold_hours) ->
      elapsed_us w timestamp <= threshold_us threshold_hours ->
      path w (Returned WITHIN)
        [EvPrint (event_text w); EvGetItem ddb_table_name OPEN_KEY]
  | path_sent ddb_table_name sns_arn threshold_hours v timestamp :
      valid_config w ddb_table_name sns_arn threshold_hours ->
      store_has_timestamp w ddb_table_name v ->
      strptime v = Returned timestamp ->
      timedelta_hours threshold_hours = Returned (threshold_us threshold_hours) ->
      threshold_us threshold_hours < elapsed_us w timestamp ->
      publish_answer w sns_arn (alert_message threshold_hours) SUBJECT = Returned tt ->
      path w (Returned SENT)
        [EvPrint (event_text w); EvGetItem ddb_table_name OPEN_KEY;
         EvPublish sns_arn (alert_message threshold_hours) SUBJECT]
  | path_publish_caught ddb_table_name sns_arn threshold_hours v timestamp msg :
      valid_config w ddb_table_name sns_arn threshold_hours ->
      store_has_timestamp w ddb_table_name v ->
      strptime v = Returned timestamp ->
      timedelta_hours threshold_hours = Returned (threshold_us threshold_hours) ->
      threshold_us threshold_hours < elapsed_us w timestamp ->
      publish_answer w sns_arn (alert_message threshold_hours) SUBJECT
      = Raised (ClientError msg) ->
      path w (Returned ERROR_OCCURRED)
        [EvPrint (event_text w); EvGetItem ddb_table_name OPEN_KEY;
         EvPublish sns_arn (alert_message threshold_hours) SUBJECT;
         EvPrint ("Error: " +:+ msg)]
  | path_publish_raises ddb_table_name sns_arn threshold_hours v timestamp e :
      valid_config w ddb_table_name sns_arn threshold_hours ->
      store_has_timestamp w ddb_table_name v ->
      strptime v = Returned timestamp ->
      timedelta_hours threshold_hours = Returned (threshold_us threshold_hours) ->
      threshold_us threshold_hours < elapsed_us w timestamp ->
      publish_answer w sns_arn (alert_message threshold_hours) SUBJECT = Raised e ->
      is_ClientError e = false ->
      path w (Raised e)
        [EvPrint (event_text w); EvGetItem ddb_table_name OPEN_KEY;
         EvPublish sns_arn (alert_message threshold_hours) SUBJECT].

(** Two answers of the store that the handler cannot tell apart: the same
    exception, or no item in both, or items with the same ['timestamp']. *)
Definition same_timestamp (a b : outcome response) : Prop :=
  match a, b with
  | Raised e, Raised e' => e = e'
  | Returned ra, Returned rb =>
      match Item ra, Item rb with
      | None, None => True
      | Some ia, Some ib => ia !! "timestamp" = ib !! "timestamp"
      | _, _ => False
      end
  | _, _ => False
  end.

(** The thresholds [timedelta(hours=...)] can hold. *)
Definition MIN_THRESHOLD_HOURS : Z := -23999999976.
Definition MAX_THRESHOLD_HOURS : Z := 23999999999.

(** ** Timestamps as the writer of the record formats them *)

Definition digit_char (n : Z) : ascii := ascii_of_N (Z.to_N (48 + n)).

(** A number below 100 on two digits, and one below 10000 on four. *)
Definition digits2 (n : Z) : string :=
  String (digit_char (n / 10)) (String (digit_char (n mod 10)) EmptyString).
Definition digits4 (n : Z) : string :=
  String (digit_char (n / 1000))
    (String (digit_char (n / 100 mod 10)) (digits2 (n mod 100))).

(** The fourteen digits [YYYYMMDDHHMMSS]. *)
Definition timestamp_text (year month day hour minute second : Z) : string :=
  digits4 year +:+ digits2 month +:+ digits2 day
  +:+ digits2 hour +:+ digits2 minute +:+ digits2 second.

Definition digit_or_space (c : ascii) : bool := is_digit c || Ascii.eqb c " ".

Fixpoint all_chars (p : ascii -> bool) (s : string) : bool :=
  match s with
  | String c r => p c && all_chars p r
  | EmptyString => true
  end.

(** The first alternative of a group that matches at the head of [s]. *)
Fixpoint first_hit (g : Strptime.group) (s : string) : option (string * string) :=
  match g with
  | [] => None
  | a :: g' =>
      match Strptime.match_alternative a s with
      | Some r => Some r
      | None => first_hit g' s
      end
  end.

(** A class that accepts nothing but digits and the space. *)
Definition class_ok (k : Strptime.cls) : Prop :=
  forall c, k c = true -> digit_or_space c = true.

Definition total_length (texts : list string) : nat :=
  fold_right (fun t n => (String.length t + n)%nat) 0%nat texts.

(** ** The script entry point *)

(** Lines 86 and 87: [print(lambda_handler(None, None))].  The event is
    [None], whose text is ["None"]. *)
Definition main (w : world) : io unit :=
  (outcome <- lambda_handler (with_event_text w "None") ;;
   print outcome)%io.

Definition run_main (w : world) : outcome unit * list event := main w [].

(** * Properties *)

#[local] Arguments US_Central.instance_at_utc : simpl never.
#[local] Arguments US_Central.instance_at_wall : simpl never.
#[local] Arguments datetime_now : simpl never.
#[local] Arguments timedelta_hours : simpl never.
#[local] Arguments strptime : simpl never.
#[local] Arguments PyInt.int : simpl never.
#[local] Arguments alert_message : simpl never.

(** ** The interpreter of the effects *)

Section Effects.

Context {A B : Type}.

Lemma bind_returned (m : io A) (k : A -> io B) tr a tr' :
  m tr = (Returned a, tr') -> bind m k tr = k a tr'.
Proof. intros H. unfold bind. now rewrite H. Qed.

Lemma bind_raised (m : io A) (k : A -> io B) tr e tr' :
  m tr = (Raised e, tr') -> bind m k tr = (Raised e, tr').
Proof. intros H. unfold bind. now rewrite H. Qed.

Lemma try_except_returned (body : io A) C handler tr a tr' :
  body tr = (Returned a, tr') -> try_except body C handler tr = (Returned a, tr').
Proof. intros H. unfold try_except. now rewrite H. Qed.

Lemma try_except_caught (body : io A) C handler tr e tr' :
  body tr = (Raised e, tr') -> C e = true ->
  try_except body C handler tr = handler e tr'.
Proof. intros H HC. unfold try_except. now rewrite H, HC. Qed.

Lemma try_except_passed (body : io A) C handler tr e tr' :
  body tr = (Raised e, tr') -> C e = false ->
  try_except body C handler tr = (Raised e, tr').
Proof. intros H HC. unfold try_except. now rewrite H, HC. Qed.

End Effects.

(** ** Exceptions of the library calls *)

(** [int()] on a string raises nothing but [ValueError]. *)
Lemma int_raises_ValueError s e :
  PyInt.int s = Raised e -> is_ValueError e = true.
Proof.
  unfold PyInt.int, PyInt.invalid_literal.
  destruct (PyInt.sign_and_rest (PyInt.lstrip s)) as [sign body].
  assert (Hscan :
    match PyInt.scan false 0 0%nat body with
    | Some (v, digits, rest) =>
        if (digits =? 0)%nat
        then Raised (ValueError ("invalid literal for int() with base 10: " +:+ s))
        else
          if (PyInt.max_str_digits <? digits)%nat
          then Raised (ValueError
                 "Exceeds the limit (4300 digits) for integer string conversion")
          else
            match PyInt.lstrip rest with
            | EmptyString => Returned (sign * v)
            | String _ _ =>
                Raised (ValueError ("invalid literal for int() with base 10: " +:+ s))
            end
    | None => Raised (ValueError ("invalid literal for int() with base 10: " +:+ s))
    end = Raised e -> is_ValueError e = true).
  { destruct (PyInt.scan false 0 0%nat body) as [[[v digits] rest]|].
    - destruct (digits =? 0)%nat; [intros [= <-]; reflexivity|].
      destruct (PyInt.max_str_digits <? digits)%nat; [intros [= <-]; reflexivity|].
      destruct (PyInt.lstrip rest); [discriminate|intros [= <-]; reflexivity].
    - intros [= <-]; reflexivity. }
  destruct body as [|c r]; [exact Hscan|].
  destruct c as [[] [] [] [] [] [] [] []]; try exact Hscan.
  intros [= <-]; reflexivity.
Qed.

(** The empty string is no integer. *)
Lemma int_empty : exists e, PyInt.int "" = Raised e.
Proof. eexists. reflexivity. Qed.

(** [strptime] raises [ValueError] or [TypeError], never [ClientError]. *)
Lemma strptime_str_raises s e :
  Strptime.strptime_str s = Raised e -> is_ValueError e = true.
Proof.
  unfold Strptime.strptime_str, Strptime.fields, Strptime.no_match.
  destruct (Strptime.match_groups Strptime.format_regex s) as [[texts rest]|];
    [|intros [= <-]; reflexivity].
  destruct rest; [|intros [= <-]; reflexivity].
  destruct (map PyInt.int texts) as [|[y|] [|[m|] [|[d|] [|[hh|] [|[mm|] [|[ss|] [|]]]]]]];
    try (intros [= <-]; reflexivity).
  destruct (negb (Calendar.valid_date y m d)); [intros [= <-]; reflexivity|].
  destruct (negb (ss <=? 59)); [intros [= <-]; reflexivity|discriminate].
Qed.

Lemma strptime_raises v e :
  strptime v = Raised e -> is_ClientError e = false.
Proof.
  destruct v; simpl; try (intros [= <-]; reflexivity).
  intros H. apply strptime_str_raises in H. now destruct e.
Qed.

(** ** Instants *)

Lemma instance_at_utc_cases t :
  US_Central.instance_at_utc t = US_Central.CST
  \/ US_Central.instance_at_utc t = US_Central.CDT.
Proof. unfold US_Central.instance_at_utc. destruct (_ && _); auto. Qed.

Lemma instance_at_wall_cases t :
  US_Central.instance_at_wall t = US_Central.CST
  \/ US_Central.instance_at_wall t = US_Central.CDT.
Proof. unfold US_Central.instance_at_wall. destruct (_ && _); auto. Qed.

(** The clock reading made by [datetime.now] is the clock. *)
Lemma utc_instant_now c : utc_instant (datetime_now c) = c.
Proof.
  unfold utc_instant, datetime_now; cbn [dt_tzinfo wall_us]. lia.
Qed.

(** The instant of a timestamp with the zone attached by [replace]: its
    wall clock read at UTC-5:51. *)
Lemma handler_instant_eq timestamp :
  handler_instant timestamp = wall_us timestamp + 21060 * 1000000.
Proof.
  unfold handler_instant, utc_instant, replace_tzinfo, US_Central.timezone.
  cbn [dt_tzinfo wall_us US_Central.LMT tz_utcoffset]. lia.
Qed.

(** The subtraction of the handler computes the difference of instants. *)
Lemma now_minus_timestamp w timestamp :
  datetime_sub (datetime_now (utcnow_us w))
    (replace_tzinfo timestamp US_Central.timezone)
  = Returned (elapsed_us w timestamp).
Proof.
  unfold elapsed_us. rewrite handler_instant_eq.
  unfold datetime_sub, datetime_now, replace_tzinfo, US_Central.timezone.
  cbn [dt_tzinfo wall_us].
  destruct (instance_at_utc_cases (utcnow_us w / 1000000)) as [-> | ->];
    (destruct (decide _) as [Heq|_]; [discriminate Heq|]);
    cbn [US_Central.CST US_Central.CDT US_Central.LMT tz_utcoffset];
    (destruct (_ =? _) eqn:Hoff; [discriminate Hoff|]); f_equal; lia.
Qed.

(** ** The paths of the handler *)

Lemma py_not_set s : s <> "" -> py_not (Some s) = false.
Proof. intros H. simpl. now apply String.eqb_neq. Qed.

(** A variable that is absent or blank ends the invocation at once. *)
Lemma invoke_env_error w :
  py_not (environ w !! "DDB_TABLE_NAME") || py_not (environ w !! "SNS_ARN")
  || py_not (environ w !! "THRESHOLD_HOURS") = true ->
  invoke w = (Returned ENV_ERROR, [EvPrint (event_text w)]).
Proof.
  intros H. unfold invoke, lambda_handler, bind, print, emit; simpl.
  now rewrite H.
Qed.

(** With the three variables set, the handler goes on to [int()]. *)
Lemma invoke_configured w ddb_table_name sns_arn threshold_hours_env :
  configured w ddb_table_name sns_arn threshold_hours_env ->
  invoke w =
    match PyInt.int threshold_hours_env with
    | Raised e =>
        if is_ValueError e then (Returned THRESHOLD_ERROR, [EvPrint (event_text w)])
        else (Raised e, [EvPrint (event_text w)])
    | Returned threshold_hours =>
        try_except (guarded_block w ddb_table_name sns_arn threshold_hours)
          is_ClientError
          (fun e => bind (print ("Error: " +:+ str_exn e)) (fun _ => ret ERROR_OCCURRED))
          [EvPrint (event_text w)]
    end.
Proof.
  intros (Hd & Hd' & Ha & Ha' & Ht & Ht').
  unfold invoke, lambda_handler, bind at 1, print at 1, emit at 1; simpl.
  rewrite Hd, Ha, Ht, !py_not_set by assumption; simpl.
  destruct (PyInt.int threshold_hours_env) as [h|e]; [reflexivity|].
  now destruct (is_ValueError e).
Qed.

Lemma invoke_threshold_error w ddb_table_name sns_arn threshold_hours_env e :
  configured w ddb_table_name sns_arn threshold_hours_env ->
  PyInt.int threshold_hours_env = Raised e ->
  invoke w = (Returned THRESHOLD_ERROR, [EvPrint (event_text w)]).
Proof.
  intros Hc He. rewrite (invoke_configured _ _ _ _ Hc), He.
  now rewrite (int_raises_ValueError _ _ He).
Qed.

Lemma invoke_valid w ddb_table_name sns_arn threshold_hours :
  valid_config w ddb_table_name sns_arn threshold_hours ->
  invoke w =
    try_except (guarded_block w ddb_table_name sns_arn threshold_hours)
      is_ClientError
      (fun e => bind (print ("Error: " +:+ str_exn e)) (fun _ => ret ERROR_OCCURRED))
      [EvPrint (event_text w)].
Proof.
  intros (th & Hc & Hint). now rewrite (invoke_configured _ _ _ _ Hc), Hint.
Qed.

Section GuardedBlock.

Variables (w : world) (ddb_table_name sns_arn : string) (threshold_hours : Z).
Variable tr : list event.

Let read : event := EvGetItem ddb_table_name OPEN_KEY.
Let alert : event := EvPublish sns_arn (alert_message threshold_hours) SUBJECT.

Lemma block_read_raises e :
  get_item_answer w ddb_table_name OPEN_KEY = Raised e ->
  guarded_block w ddb_table_name sns_arn threshold_hours tr
  = (Raised e, (tr ++ [read])%list).
Proof.
  intros H. unfold guarded_block, get_item, bind, emit, lift.
  fold OPEN_KEY. cbv beta iota. now rewrite H.
Qed.

Lemma block_no_timestamp :
  store_has_no_timestamp w ddb_table_name ->
  guarded_block w ddb_table_name sns_arn threshold_hours tr
  = (Returned NO_TIMESTAMP, (tr ++ [read])%list).
Proof.
  intros [H | (item & H & Hts)];
    unfold guarded_block, get_item, bind, emit, lift, ret;
    fold OPEN_KEY; cbv beta iota; rewrite H; cbn [Item];
    [reflexivity|now rewrite Hts].
Qed.

Lemma block_timestamp v :
  store_has_timestamp w ddb_table_name v ->
  guarded_block w ddb_table_name sns_arn threshold_hours tr
  = match strptime v with
    | Raised e => (Raised e, (tr ++ [read])%list)
    | Returned timestamp =>
        match timedelta_hours threshold_hours with
        | Raised e => (Raised e, (tr ++ [read])%list)
        | Returned threshold =>
            if threshold <? elapsed_us w timestamp then
              match publish_answer w sns_arn (alert_message threshold_hours) SUBJECT with
              | Returned _ => (Returned SENT, (tr ++ [read; alert])%list)
              | Raised e => (Raised e, (tr ++ [read; alert])%list)
              end
            else (Returned WITHIN, (tr ++ [read])%list)
        end
    end.
Proof.
  intros (item & H & Hts).
  unfold guarded_block, get_item, publish, bind, emit, lift, ret.
  fold OPEN_KEY. cbv beta iota. rewrite H; cbn [Item]. rewrite Hts.
  destruct (strptime v) as [timestamp|e]; [|reflexivity].
  rewrite now_minus_timestamp.
  destruct (timedelta_hours threshold_hours) as [threshold|e]; [|reflexivity].
  destruct (threshold <? elapsed_us w timestamp); [|reflexivity].
  rewrite <- app_assoc; cbn [app].
  now destruct (publish_answer _ _ _ _) as [[]|e].
Qed.

End GuardedBlock.

Lemma timedelta_hours_returned h threshold :
  timedelta_hours h = Returned threshold -> threshold = threshold_us h.
Proof.
  unfold timedelta_hours, threshold_us.
  destruct (_ && _); [now intros [= <-]|discriminate].
Qed.


Ltac evaluate := vm_compute; reflexivity.
Ltac config_of th :=
  exists th; repeat split; try discriminate; evaluate.

(** ** Configuration errors *)

(** One of the three variables is absent or blank: the handler stops after
    logging the event. *)
Lemma unusable_variable (w : world) (k : string) :
  k = "DDB_TABLE_NAME" \/ k = "SNS_ARN" \/ k = "THRESHOLD_HOURS" ->
  py_not (environ w !! k) = true ->
  invoke w = (Returned ENV_ERROR, [EvPrint (event_text w)]).
Proof.
  intros Hk Hnot. apply invoke_env_error.
  destruct Hk as [-> | [-> | ->]]; rewrite Hnot, ?orb_true_r; reflexivity.
Qed.

Lemma env_error_trace_is_quiet (text : string) :
  no_external_call [EvPrint text].
Proof. split; reflexivity. Qed.

(** C3.  When one of DDB_TABLE_NAME, SNS_ARN and THRESHOLD_HOURS is absent
    from the environment, the handler returns the configuration error,
    which names the three variables, after logging the event and nothing
    else: the store is not read and nothing is published. *)
Theorem C3_absent_variable (w : world) (k : string) :
  k = "DDB_TABLE_NAME" \/ k = "SNS_ARN" \/ k = "THRESHOLD_HOURS" ->
  environ w !! k = None ->
  invoke w = (Returned ENV_ERROR, [EvPrint (event_text w)])
  /\ no_external_call (snd (invoke w))
  /\ contains "DDB_TABLE_NAME" ENV_ERROR = true
  /\ contains "SNS_ARN" ENV_ERROR = true
  /\ contains "THRESHOLD_HOURS" ENV_ERROR = true.
Proof.
  intros Hk Habsent.
  assert (Hinv : invoke w = (Returned ENV_ERROR, [EvPrint (event_text w)])).
  { apply (unusable_variable w k Hk). now rewrite Habsent. }
  rewrite Hinv. split; [reflexivity|].
  split; [apply env_error_trace_is_quiet|]. repeat split; evaluate.
Qed.

Lemma C3_absent_variable_witness :
  environ Sample.topic_unset !! "SNS_ARN" = None
  /\ invoke Sample.topic_unset = (Returned ENV_ERROR, [EvPrint "{}"]).
Proof.
  assert (H : environ Sample.topic_unset !! "SNS_ARN" = None) by evaluate.
  split; [exact H|].
  apply (C3_absent_variable Sample.topic_unset "SNS_ARN"); [auto|exact H].
Defined.

(** C10.  A variable set to the empty string is treated as an absent one:
    the handler returns the configuration error without reading the store
    or publishing, which is also what it does once the variable is removed
    from the environment. *)
Theorem C10_blank_variable (w : world) (k : string) :
  k = "DDB_TABLE_NAME" \/ k = "SNS_ARN" \/ k = "THRESHOLD_HOURS" ->
  environ w !! k = Some "" ->
  invoke w = (Returned ENV_ERROR, [EvPrint (event_text w)])
  /\ no_external_call (snd (invoke w))
  /\ invoke w = invoke (with_environ w (delete k (environ w))).
Proof.
  intros Hk Hblank.
  assert (Hinv : invoke w = (Returned ENV_ERROR, [EvPrint (event_text w)])).
  { apply (unusable_variable w k Hk). now rewrite Hblank. }
  assert (Habsent : environ (with_environ w (delete k (environ w))) !! k = None)
    by apply lookup_delete_eq.
  rewrite Hinv. split; [reflexivity|].
  split; [apply env_error_trace_is_quiet|].
  symmetry.
  apply (unusable_variable (with_environ w (delete k (environ w))) k Hk).
  now rewrite Habsent.
Qed.

Lemma C10_blank_variable_witness :
  environ Sample.topic_blank !! "SNS_ARN" = Some ""
  /\ invoke Sample.topic_blank = (Returned ENV_ERROR, [EvPrint "{}"])
  /\ invoke Sample.topic_blank = invoke Sample.topic_unset.
Proof.
  assert (H : environ Sample.topic_blank !! "SNS_ARN" = Some "") by evaluate.
  split; [exact H|].
  destruct (C10_blank_variable Sample.topic_blank "SNS_ARN") as (H1 & _ & H2);
    [auto|exact H|].
  split; [exact H1|]. rewrite H2. evaluate.
Defined.






(** ** The store read *)

(** C6.  With a valid configuration, when the store read succeeds but
    finds no item under the key ["open"], or finds an item without the
    ['timestamp'] field, the handler returns "No timestamp found in
    DynamoDB" and publishes nothing. *)
Theorem C6_no_timestamp
    (w : world) (ddb_table_name sns_arn : string) (threshold_hours : Z) :
  valid_config w ddb_table_name sns_arn threshold_hours ->
  store_has_no_timestamp w ddb_table_name ->
  invoke w = (Returned NO_TIMESTAMP,
              [EvPrint (event_text w); EvGetItem ddb_table_name OPEN_KEY])
  /\ count_events is_publish (snd (invoke w)) = 0%nat.
Proof.
  intros Hv Hs.
  assert (Hinv : invoke w = (Returned NO_TIMESTAMP,
                   [EvPrint (event_text w); EvGetItem ddb_table_name OPEN_KEY])).
  { rewrite (invoke_valid _ _ _ _ Hv).
    apply try_except_returned. now rewrite block_no_timestamp. }
  rewrite Hinv. split; reflexivity.
Qed.

Lemma C6_no_timestamp_witness :
  (valid_config Sample.no_item Sample.TABLE Sample.TOPIC 2
   /\ store_has_no_timestamp Sample.no_item Sample.TABLE
   /\ invoke Sample.no_item
      = (Returned NO_TIMESTAMP, [EvPrint "{}"; EvGetItem Sample.TABLE OPEN_KEY]))
  /\ (valid_config Sample.no_field Sample.TABLE Sample.TOPIC 2
      /\ store_has_no_timestamp Sample.no_field Sample.TABLE
      /\ invoke Sample.no_field
         = (Returned NO_TIMESTAMP, [EvPrint "{}"; EvGetItem Sample.TABLE OPEN_KEY])).
Proof.
  assert (Hv1 : valid_config Sample.no_item Sample.TABLE Sample.TOPIC 2)
    by config_of "2".
  assert (Hs1 : store_has_no_timestamp Sample.no_item Sample.TABLE)
    by (left; reflexivity).
  assert (Hv2 : valid_config Sample.no_field Sample.TABLE Sample.TOPIC 2)
    by config_of "2".
  assert (Hs2 : store_has_no_timestamp Sample.no_field Sample.TABLE)
    by (right; exists Sample.item_without; split; evaluate).
  split; (split; [assumption|split; [assumption|]]).
  - exact (proj1 (C6_no_timestamp _ _ _ _ Hv1 Hs1)).
  - exact (proj1 (C6_no_timestamp _ _ _ _ Hv2 Hs2)).
Defined.

(** C7, as the claim states it, fails for a failure it lists: in
    [store_unreachable] the configuration is valid and the store read fails
    on the network, which botocore raises outside the [ClientError] class;
    the handler does not catch it, logs nothing and returns no outcome:
    the exception leaves the handler. *)
Lemma C7_counterexample :
  valid_config Sample.store_unreachable Sample.TABLE Sample.TOPIC 2
  /\ get_item_answer Sample.store_unreachable Sample.TABLE OPEN_KEY
     = Raised (BotoCoreError "Could not connect to the endpoint URL")
  /\ invoke Sample.store_unreachable
     = (Raised (BotoCoreError "Could not connect to the endpoint URL"),
        [EvPrint "{}"; EvGetItem Sample.TABLE OPEN_KEY])
  /\ fst (invoke Sample.store_unreachable) <> Returned ERROR_OCCURRED.
Proof.
  split; [config_of "2"|]. split; [reflexivity|].
  split; [evaluate|now vm_compute].
Qed.

(** C7 (amended).  With a valid configuration, when the store read raises
    a [ClientError] (the error response of the service: permission,
    throttling), the handler catches it, logs it and returns "Error
    occurred"; when the read raises an exception of another class, such as
    a connection failure, the exception leaves the handler and nothing is
    logged.  Either way the store was read once (no retry) and nothing is
    published. *)
Theorem C7_store_ClientError_is_caught
    (w : world) (ddb_table_name sns_arn : string) (threshold_hours : Z)
    (e : exn) :
  valid_config w ddb_table_name sns_arn threshold_hours ->
  get_item_answer w ddb_table_name OPEN_KEY = Raised e ->
  (is_ClientError e = true ->
   invoke w = (Returned ERROR_OCCURRED,
               [EvPrint (event_text w); EvGetItem ddb_table_name OPEN_KEY;
                EvPrint ("Error: " +:+ str_exn e)]))
  /\ (is_ClientError e = false ->
      invoke w = (Raised e,
                  [EvPrint (event_text w); EvGetItem ddb_table_name OPEN_KEY]))
  /\ count_events is_store_read (snd (invoke w)) = 1%nat
  /\ count_events is_publish (snd (invoke w)) = 0%nat.
Proof.
  intros Hv Hread.
  pose proof (block_read_raises w ddb_table_name sns_arn threshold_hours
                [EvPrint (event_text w)] e Hread) as Hblock.
  rewrite (invoke_valid _ _ _ _ Hv).
  destruct (is_ClientError e) eqn:HC.
  - rewrite (try_except_caught _ _ _ _ _ _ Hblock HC).
    repeat split; try reflexivity. discriminate.
  - rewrite (try_except_passed _ _ _ _ _ _ Hblock HC).
    repeat split; try reflexivity. discriminate.
Qed.

Lemma C7_store_ClientError_is_caught_witness :
  valid_config Sample.store_denied Sample.TABLE Sample.TOPIC 2
  /\ get_item_answer Sample.store_denied Sample.TABLE OPEN_KEY
     = Raised (ClientError Sample.ACCESS_DENIED)
  /\ invoke Sample.store_denied
     = (Returned ERROR_OCCURRED,
        [EvPrint "{}"; EvGetItem Sample.TABLE OPEN_KEY;
         EvPrint ("Error: " +:+ Sample.ACCESS_DENIED)]).
Proof.
  assert (Hv : valid_config Sample.store_denied Sample.TABLE Sample.TOPIC 2)
    by config_of "2".
  split; [exact Hv|]. split; [reflexivity|].
  exact (proj1 (C7_store_ClientError_is_caught
                  Sample.store_denied Sample.TABLE Sample.TOPIC 2
                  (ClientError Sample.ACCESS_DENIED) Hv eq_refl) eq_refl).
Defined.

(** ** The timestamp *)



(** ** The comparison with the threshold *)

(** With everything in place, the invocation is decided by the strict
    comparison and then by the answer of the topic. *)
Lemma invoke_compares
    (w : world) (ddb_table_name sns_arn : string) (threshold_hours : Z)
    (v : attr) (timestamp : datetime) :
  valid_config w ddb_table_name sns_arn threshold_hours ->
  store_has_timestamp w ddb_table_name v ->
  strptime v = Returned timestamp ->
  timedelta_hours threshold_hours = Returned (threshold_us threshold_hours) ->
  let read := EvGetItem ddb_table_name OPEN_KEY in
  let alert := EvPublish sns_arn (alert_message threshold_hours) SUBJECT in
  invoke w =
    if threshold_us threshold_hours <? elapsed_us w timestamp then
      match publish_answer w sns_arn (alert_message threshold_hours) SUBJECT with
      | Returned _ => (Returned SENT, [EvPrint (event_text w); read; alert])
      | Raised e =>
          if is_ClientError e then
            (Returned ERROR_OCCURRED,
             [EvPrint (event_text w); read; alert; EvPrint ("Error: " +:+ str_exn e)])
          else (Raised e, [EvPrint (event_text w); read; alert])
      end
    else (Returned WITHIN, [EvPrint (event_text w); read]).
Proof.
  intros Hv Hs Hparse Hdelta read alert.
  rewrite (invoke_valid _ _ _ _ Hv).
  unfold try_except. rewrite (block_timestamp _ _ _ _ _ _ Hs), Hparse, Hdelta.
  destruct (_ <? _); [|reflexivity].
  destruct (publish_answer _ _ _ _) as [[]|e]; [reflexivity|].
  destruct (is_ClientError e); reflexivity.
Qed.

(** C1, as the claim states it, fails in two ways.  In [stale_publish_denied]
    the configuration is valid, the store read succeeds, the timestamp
    parses and the elapsed time exceeds the threshold, yet the topic
    refuses the message and the handler returns "Error occurred", not "SNS
    notification sent".  In [fresh_huge_threshold] the elapsed time is
    below the threshold of 99999999999 hours, yet no [timedelta] can hold
    that threshold and the handler raises [OverflowError] instead of
    returning "Timestamp is within the threshold". *)
Lemma C1_counterexample :
  (valid_config Sample.stale_publish_denied Sample.TABLE Sample.TOPIC 2
   /\ store_has_timestamp Sample.stale_publish_denied Sample.TABLE
        (AttrS "20240115090000")
   /\ strptime (AttrS "20240115090000")
      = Returned (datetime_of_fields 2024 1 15 9 0 0)
   /\ threshold_us 2
      < elapsed_us Sample.stale_publish_denied (datetime_of_fields 2024 1 15 9 0 0)
   /\ fst (invoke Sample.stale_publish_denied) = Returned ERROR_OCCURRED
   /\ fst (invoke Sample.stale_publish_denied) <> Returned SENT)
  /\ (valid_config Sample.fresh_huge_threshold Sample.TABLE Sample.TOPIC 99999999999
      /\ store_has_timestamp Sample.fresh_huge_threshold Sample.TABLE
           (AttrS "20240115110000")
      /\ strptime (AttrS "20240115110000")
         = Returned (datetime_of_fields 2024 1 15 11 0 0)
      /\ elapsed_us Sample.fresh_huge_threshold (datetime_of_fields 2024 1 15 11 0 0)
         <= threshold_us 99999999999
      /\ (exists m, fst (invoke Sample.fresh_huge_threshold) = Raised (OverflowError m))
      /\ fst (invoke Sample.fresh_huge_threshold) <> Returned WITHIN).
Proof.
  split.
  - split; [config_of "2"|].
    split; [exists (Sample.item_with (AttrS "20240115090000")); split; evaluate|].
    split; [evaluate|]. split; [now vm_compute|].
    split; [evaluate|now vm_compute].
  - split; [config_of "99999999999"|].
    split; [exists (Sample.item_with (AttrS "20240115110000")); split; evaluate|].
    split; [evaluate|]. split; [now vm_compute|].
    split; [eexists; evaluate|now vm_compute].
Qed.

(** C1 (amended).  With a valid configuration whose threshold is a number
    of hours that a [timedelta] can hold, a successful store read, an item
    whose timestamp parses, and a topic that accepts the message: a
    notification is published and "SNS notification sent" is returned if
    and only if the elapsed time (now minus the instant of the parsed
    timestamp) strictly exceeds the threshold; otherwise, and so when the
    two are equal, nothing is published and "Timestamp is within the
    threshold" is returned. *)
Theorem C1_alert_iff_threshold_exceeded
    (w : world) (ddb_table_name sns_arn : string) (threshold_hours : Z)
    (v : attr) (timestamp : datetime) :
  valid_config w ddb_table_name sns_arn threshold_hours ->
  store_has_timestamp w ddb_table_name v ->
  strptime v = Returned timestamp ->
  timedelta_hours threshold_hours = Returned (threshold_us threshold_hours) ->
  publish_answer w sns_arn (alert_message threshold_hours) SUBJECT = Returned tt ->
  let read := EvGetItem ddb_table_name OPEN_KEY in
  let alert := EvPublish sns_arn (alert_message threshold_hours) SUBJECT in
  (invoke w = (Returned SENT, [EvPrint (event_text w); read; alert])
   <-> threshold_us threshold_hours < elapsed_us w timestamp)
  /\ ((fst (invoke w) = Returned SENT \/ (0 < count_events is_publish (snd (invoke w)))%nat)
      -> threshold_us threshold_hours < elapsed_us w timestamp)
  /\ (elapsed_us w timestamp <= threshold_us threshold_hours ->
      invoke w = (Returned WITHIN, [EvPrint (event_text w); read])
      /\ count_events is_publish (snd (invoke w)) = 0%nat).
Proof.
  intros Hv Hs Hparse Hdelta Hpub read alert.
  pose proof (invoke_compares _ _ _ _ _ _ Hv Hs Hparse Hdelta) as Hinv.
  cbv zeta in Hinv. rewrite Hpub in Hinv. fold read alert in Hinv.
  destruct (threshold_us threshold_hours <? elapsed_us w timestamp) eqn:Hcmp.
  - apply Z.ltb_lt in Hcmp. rewrite Hinv.
    split; [tauto|]. split; [tauto|]. intros Hle. lia.
  - apply Z.ltb_ge in Hcmp. rewrite Hinv.
    split; [split; [discriminate|lia]|].
    split.
    + intros [Hsent | Hcount]; [discriminate Hsent|].
      cbn in Hcount. lia.
    + intros _. split; reflexivity.
Qed.

Lemma C1_alert_iff_threshold_exceeded_witness :
  (valid_config Sample.stale Sample.TABLE Sample.TOPIC 2
   /\ store_has_timestamp Sample.stale Sample.TABLE (AttrS "20240115090000")
   /\ threshold_us 2 < elapsed_us Sample.stale (datetime_of_fields 2024 1 15 9 0 0)
   /\ invoke Sample.stale
      = (Returned SENT,
         [EvPrint "{}"; EvGetItem Sample.TABLE OPEN_KEY;
          EvPublish Sample.TOPIC (alert_message 2) SUBJECT]))
  /\ (valid_config Sample.boundary Sample.TABLE Sample.TOPIC 2
      /\ store_has_timestamp Sample.boundary Sample.TABLE (AttrS "20240115100900")
      /\ elapsed_us Sample.boundary (datetime_of_fields 2024 1 15 10 9 0)
         = threshold_us 2
      /\ invoke Sample.boundary
         = (Returned WITHIN, [EvPrint "{}"; EvGetItem Sample.TABLE OPEN_KEY])).
Proof.
  assert (Hv1 : valid_config Sample.stale Sample.TABLE Sample.TOPIC 2)
    by config_of "2".
  assert (Hs1 : store_has_timestamp Sample.stale Sample.TABLE (AttrS "20240115090000"))
    by (exists (Sample.item_with (AttrS "20240115090000")); split; evaluate).
  assert (Hp1 : strptime (AttrS "20240115090000")
                = Returned (datetime_of_fields 2024 1 15 9 0 0)) by evaluate.
  assert (Hv2 : valid_config Sample.boundary Sample.TABLE Sample.TOPIC 2)
    by config_of "2".
  assert (Hs2 : store_has_timestamp Sample.boundary Sample.TABLE
                  (AttrS "20240115100900"))
    by (exists (Sample.item_with (AttrS "20240115100900")); split; evaluate).
  assert (Hp2 : strptime (AttrS "20240115100900")
                = Returned (datetime_of_fields 2024 1 15 10 9 0)) by evaluate.
  assert (Hd : timedelta_hours 2 = Returned (threshold_us 2)) by evaluate.
  assert (Hlt : threshold_us 2
                < elapsed_us Sample.stale (datetime_of_fields 2024 1 15 9 0 0))
    by (now vm_compute).
  assert (Heq : elapsed_us Sample.boundary (datetime_of_fields 2024 1 15 10 9 0)
                = threshold_us 2) by evaluate.
  split; (split; [assumption|split; [assumption|split; [assumption|]]]).
  - destruct (C1_alert_iff_threshold_exceeded Sample.stale _ _ _ _ _
                Hv1 Hs1 Hp1 Hd eq_refl) as (Hiff & _ & _).
    exact (proj2 Hiff Hlt).
  - destruct (C1_alert_iff_threshold_exceeded Sample.boundary _ _ _ _ _
                Hv2 Hs2 Hp2 Hd eq_refl) as (_ & _ & Hwithin).
    refine (proj1 (Hwithin _)). rewrite Heq. apply Z.le_refl.
Defined.

(** ** Which failures are caught *)

(** C5, as the claim states it, fails: in [stale_publish_denied] the
    publish raises a [ClientError], and the handler catches it, logs it and
    returns "Error occurred"; the failure does not leave the handler. *)
Lemma C5_counterexample :
  publish_answer Sample.stale_publish_denied Sample.TOPIC (alert_message 2) SUBJECT
  = Raised (ClientError Sample.PUBLISH_DENIED)
  /\ invoke Sample.stale_publish_denied
     = (Returned ERROR_OCCURRED,
        [EvPrint "{}"; EvGetItem Sample.TABLE OPEN_KEY;
         EvPublish Sample.TOPIC (alert_message 2) SUBJECT;
         EvPrint ("Error: " +:+ Sample.PUBLISH_DENIED)])
  /\ (forall e, fst (invoke Sample.stale_publish_denied) <> Raised e).
Proof.
  split; [reflexivity|]. split; [evaluate|].
  intros e. now vm_compute.
Qed.

(** C5 (amended).  The [except ClientError] clause guards the store read
    and the publish alike.  With a valid configuration, a [ClientError]
    raised by the read or by the publish is caught, logged and turned into
    "Error occurred"; an exception of another class raised by either call
    leaves the handler. *)
Theorem C5_ClientError_is_caught_at_both_calls
    (w : world) (ddb_table_name sns_arn : string) (threshold_hours : Z) :
  valid_config w ddb_table_name sns_arn threshold_hours ->
  let read := EvGetItem ddb_table_name OPEN_KEY in
  let alert := EvPublish sns_arn (alert_message threshold_hours) SUBJECT in
  (forall e,
      get_item_answer w ddb_table_name OPEN_KEY = Raised e ->
      invoke w =
        if is_ClientError e then
          (Returned ERROR_OCCURRED,
           [EvPrint (event_text w); read; EvPrint ("Error: " +:+ str_exn e)])
        else (Raised e, [EvPrint (event_text w); read]))
  /\ (forall v timestamp e,
        store_has_timestamp w ddb_table_name v ->
        strptime v = Returned timestamp ->
        timedelta_hours threshold_hours = Returned (threshold_us threshold_hours) ->
        threshold_us threshold_hours < elapsed_us w timestamp ->
        publish_answer w sns_arn (alert_message threshold_hours) SUBJECT = Raised e ->
        invoke w =
          if is_ClientError e then
            (Returned ERROR_OCCURRED,
             [EvPrint (event_text w); read; alert;
              EvPrint ("Error: " +:+ str_exn e)])
          else (Raised e, [EvPrint (event_text w); read; alert])).
Proof.
  intros Hv read alert. split.
  - intros e Hread. rewrite (invoke_valid _ _ _ _ Hv).
    unfold try_except. rewrite (block_read_raises _ _ _ _ _ _ Hread).
    destruct (is_ClientError e); reflexivity.
  - intros v timestamp e Hs Hparse Hdelta Hlt Hpub.
    pose proof (invoke_compares _ _ _ _ _ _ Hv Hs Hparse Hdelta) as Hinv.
    cbv zeta in Hinv. rewrite Hpub in Hinv.
    apply Z.ltb_lt in Hlt. rewrite Hlt in Hinv. exact Hinv.
Qed.

Lemma C5_ClientError_is_caught_at_both_calls_witness :
  valid_config Sample.stale_publish_denied Sample.TABLE Sample.TOPIC 2
  /\ invoke Sample.stale_publish_denied
     = (Returned ERROR_OCCURRED,
        [EvPrint "{}"; EvGetItem Sample.TABLE OPEN_KEY;
         EvPublish Sample.TOPIC (alert_message 2) SUBJECT;
         EvPrint ("Error: " +:+ Sample.PUBLISH_DENIED)]).
Proof.
  assert (Hv : valid_config Sample.stale_publish_denied Sample.TABLE Sample.TOPIC 2)
    by config_of "2".
  split; [exact Hv|].
  refine (proj2 (C5_ClientError_is_caught_at_both_calls _ _ _ _ Hv)
            (AttrS "20240115090000") (datetime_of_fields 2024 1 15 9 0 0)
            (ClientError Sample.PUBLISH_DENIED) _ _ _ _ _).
  - exists (Sample.item_with (AttrS "20240115090000")); split; evaluate.
  - evaluate.
  - evaluate.
  - now vm_compute.
  - reflexivity.
Defined.

(** A connection failure, which botocore raises outside the [ClientError]
    class, leaves the handler at either call. *)
Example unreachable_services_propagate :
  (exists m, invoke Sample.store_unreachable
             = (Raised (BotoCoreError m),
                [EvPrint "{}"; EvGetItem Sample.TABLE OPEN_KEY]))
  /\ (exists m, invoke Sample.stale_publish_unreachable
                = (Raised (BotoCoreError m),
                   [EvPrint "{}"; EvGetItem Sample.TABLE OPEN_KEY;
                    EvPublish Sample.TOPIC (alert_message 2) SUBJECT])).
Proof. split; eexists; evaluate. Qed.

(** ** The instant of the timestamp *)

(** The zone attached by [replace] is the local mean time of the table, so
    the instant of the handler is never the civil one: it is 9 minutes
    early where standard time applies and 51 minutes late where
    daylight-saving time applies. *)
Lemma handler_instant_is_not_civil (timestamp : datetime) :
  handler_instant timestamp = civil_instant timestamp - 540 * 1000000
  \/ handler_instant timestamp = civil_instant timestamp + 3060 * 1000000.
Proof.
  rewrite handler_instant_eq. unfold civil_instant.
  destruct (instance_at_wall_cases (wall_us timestamp / 1000000)) as [-> | ->];
    cbn [US_Central.CST US_Central.CDT tz_utcoffset]; [left|right]; lia.
Qed.

(** C2.  The handler does not compare the clock with the US/Central civil
    instant of the timestamp.  In [winter_1h55] the timestamp is 1 h 55 min
    old in civil time, below the threshold of 2 hours, but the handler
    finds 2 h 04 min and publishes.  In [summer_2h30] the timestamp is
    2 h 30 min old, above the threshold, but the handler finds 1 h 39 min
    and stays silent. *)
Theorem C2_elapsed_time_is_not_civil :
  (strptime (AttrS "20240115100500") = Returned (datetime_of_fields 2024 1 15 10 5 0)
   /\ civil_elapsed_us Sample.winter_1h55 (datetime_of_fields 2024 1 15 10 5 0)
      = (1 * 3600 + 55 * 60) * 1000000
   /\ elapsed_us Sample.winter_1h55 (datetime_of_fields 2024 1 15 10 5 0)
      = (2 * 3600 + 4 * 60) * 1000000
   /\ threshold_us 2 = 2 * 3600 * 1000000
   /\ invoke Sample.winter_1h55
      = (Returned SENT,
         [EvPrint "{}"; EvGetItem Sample.TABLE OPEN_KEY;
          EvPublish Sample.TOPIC "The timestamp in DynamoDB is over 2 hours old."
            SUBJECT]))
  /\ (strptime (AttrS "20240715093000") = Returned (datetime_of_fields 2024 7 15 9 30 0)
      /\ civil_elapsed_us Sample.summer_2h30 (datetime_of_fields 2024 7 15 9 30 0)
         = (2 * 3600 + 30 * 60) * 1000000
      /\ elapsed_us Sample.summer_2h30 (datetime_of_fields 2024 7 15 9 30 0)
         = (1 * 3600 + 39 * 60) * 1000000
      /\ invoke Sample.summer_2h30
         = (Returned WITHIN, [EvPrint "{}"; EvGetItem Sample.TABLE OPEN_KEY])).
Proof. repeat split; evaluate. Qed.

(** ** The model on concrete values *)

Example int_of_plain : PyInt.int "2" = Returned 2.
Proof. reflexivity. Qed.

Example int_of_padded : PyInt.int " +1_000 " = Returned 1000.
Proof. reflexivity. Qed.

Example int_of_fraction : exists m, PyInt.int "2.5" = Raised (ValueError m).
Proof. eexists. reflexivity. Qed.

(** [strptime] is more lenient than fourteen digits: the last field may
    have one digit, and the day may be written with a space. *)
Example strptime_thirteen_characters :
  Strptime.strptime_str "2024010203045" = Returned (datetime_of_fields 2024 1 2 3 4 5).
Proof. evaluate. Qed.

Example strptime_day_with_space :
  Strptime.strptime_str "202401 2030405" = Returned (datetime_of_fields 2024 1 2 3 4 5).
Proof. evaluate. Qed.

Example strptime_no_such_day :
  exists m, Strptime.strptime_str "20240230000000" = Raised (ValueError m).
Proof. eexists. evaluate. Qed.

Example strptime_leap_second :
  exists m, Strptime.strptime_str "20240102030460" = Raised (ValueError m).
Proof. eexists. evaluate. Qed.

Example strptime_fifteen_digits :
  exists m, Strptime.strptime_str "202401020304055" = Raised (ValueError m).
Proof. eexists. evaluate. Qed.

Example strptime_of_a_number :
  exists m, strptime (AttrN "20240115090000") = Raised (TypeError m).
Proof. eexists. reflexivity. Qed.

(** 15 January 2024 was a Monday; in 2024 daylight-saving time ran from
    10 March to 3 November. *)
Example calendar_2024 :
  Calendar.weekday 2024 1 15 = 0
  /\ US_Central.nth_sunday 2024 3 1 = 10
  /\ US_Central.nth_sunday 2024 11 0 = 3
  /\ US_Central.instance_at_utc (Sample.winter_noon / 1000000) = US_Central.CST
  /\ US_Central.instance_at_utc (Sample.summer_noon / 1000000) = US_Central.CDT.
Proof. repeat split; evaluate. Qed.

(** A timestamp one hour old with a threshold of two hours. *)
Example fresh_is_within :
  invoke Sample.fresh
  = (Returned WITHIN, [EvPrint "{}"; EvGetItem Sample.TABLE OPEN_KEY]).
Proof. evaluate. Qed.


(** ** The runs of the handler are its eleven paths *)

Lemma timedelta_hours_raises h e :
  timedelta_hours h = Raised e -> is_ClientError e = false.
Proof.
  unfold timedelta_hours. destruct (_ && _); [discriminate|].
  now intros [= <-].
Qed.

Lemma timedelta_hours_cases h :
  timedelta_hours h = Returned (threshold_us h)
  \/ exists e, timedelta_hours h = Raised e.
Proof.
  destruct (timedelta_hours h) as [t|e] eqn:H; [left|right; eauto].
  now rewrite (timedelta_hours_returned _ _ H).
Qed.

Lemma env_guard_false w :
  env_guard w = false ->
  exists ddb_table_name sns_arn threshold_hours_env,
    configured w ddb_table_name sns_arn threshold_hours_env.
Proof.
  unfold env_guard. intros Hguard.
  apply orb_false_elim in Hguard as [Hguard Ht].
  apply orb_false_elim in Hguard as [Hd Ha].
  destruct (environ w !! "DDB_TABLE_NAME") as [ddb|] eqn:Hddb; [|discriminate Hd].
  destruct (environ w !! "SNS_ARN") as [arn|] eqn:Harn; [|discriminate Ha].
  destruct (environ w !! "THRESHOLD_HOURS") as [th|] eqn:Hth; [|discriminate Ht].
  cbn [py_not] in Hd, Ha, Ht. apply String.eqb_neq in Hd, Ha, Ht.
  exists ddb, arn, th. repeat split; assumption.
Qed.

Lemma configured_guard w ddb_table_name sns_arn threshold_hours_env :
  configured w ddb_table_name sns_arn threshold_hours_env -> env_guard w = false.
Proof.
  intros (Hd & Hd' & Ha & Ha' & Ht & Ht'). unfold env_guard.
  now rewrite Hd, Ha, Ht, !py_not_set.
Qed.

(** Every path is a run. *)
Lemma path_sound w r tr : path w r tr -> invoke w = (r, tr).
Proof.
  intros Hpath.
  destruct Hpath as
    [ Hguard | ddb arn th e Hc Hint | ddb arn h msg Hv Hread
    | ddb arn h e Hv Hread HC | ddb arn h Hv Hs | ddb arn h v e Hv Hs Hparse
    | ddb arn h v ts e Hv Hs Hparse Hdelta
    | ddb arn h v ts Hv Hs Hparse Hdelta Hle
    | ddb arn h v ts Hv Hs Hparse Hdelta Hlt Hpub
    | ddb arn h v ts msg Hv Hs Hparse Hdelta Hlt Hpub
    | ddb arn h v ts e Hv Hs Hparse Hdelta Hlt Hpub HC ].
  - now apply invoke_env_error.
  - exact (invoke_threshold_error _ _ _ _ _ Hc Hint).
  - rewrite (invoke_valid _ _ _ _ Hv).
    erewrite try_except_caught;
      [|apply block_read_raises; exact Hread|reflexivity]. reflexivity.
  - rewrite (invoke_valid _ _ _ _ Hv).
    apply try_except_passed; [|exact HC]. now apply block_read_raises.
  - rewrite (invoke_valid _ _ _ _ Hv).
    apply try_except_returned. now rewrite block_no_timestamp.
  - rewrite (invoke_valid _ _ _ _ Hv).
    apply try_except_passed; [|exact (strptime_raises _ _ Hparse)].
    now rewrite (block_timestamp _ _ _ _ _ _ Hs), Hparse.
  - rewrite (invoke_valid _ _ _ _ Hv).
    apply try_except_passed; [|exact (timedelta_hours_raises _ _ Hdelta)].
    now rewrite (block_timestamp _ _ _ _ _ _ Hs), Hparse, Hdelta.
  - rewrite (invoke_compares _ _ _ _ _ _ Hv Hs Hparse Hdelta).
    apply Z.ltb_ge in Hle. now rewrite Hle.
  - rewrite (invoke_compares _ _ _ _ _ _ Hv Hs Hparse Hdelta).
    apply Z.ltb_lt in Hlt. now rewrite Hlt, Hpub.
  - rewrite (invoke_compares _ _ _ _ _ _ Hv Hs Hparse Hdelta).
    apply Z.ltb_lt in Hlt. now rewrite Hlt, Hpub.
  - rewrite (invoke_compares _ _ _ _ _ _ Hv Hs Hparse Hdelta).
    apply Z.ltb_lt in Hlt. now rewrite Hlt, Hpub, HC.
Qed.

(** Every world has a path. *)
Lemma path_exists w : exists r tr, path w r tr.
Proof.
  destruct (env_guard w) eqn:Hguard.
  { eexists _, _. now apply path_env_error. }
  destruct (env_guard_false _ Hguard) as (ddb & arn & th & Hc).
  destruct (PyInt.int th) as [h|e] eqn:Hint.
  2:{ eexists _, _. exact (path_threshold_error _ _ _ _ _ Hc Hint). }
  assert (Hv : valid_config w ddb arn h) by (exists th; auto).
  destruct (get_item_answer w ddb OPEN_KEY) as [[[item|]]|e] eqn:Hread.
  - destruct (item !! "timestamp") as [v|] eqn:Hts.
    + assert (Hs : store_has_timestamp w ddb v) by (exists item; auto).
      destruct (strptime v) as [ts|e] eqn:Hparse.
      2:{ eexists _, _. exact (path_parse_raises _ _ _ _ _ _ Hv Hs Hparse). }
      destruct (timedelta_hours_cases h) as [Hdelta | [e Hdelta]].
      2:{ eexists _, _. exact (path_overflow _ _ _ _ _ _ _ Hv Hs Hparse Hdelta). }
      destruct (Z_lt_le_dec (threshold_us h) (elapsed_us w ts)) as [Hlt|Hle].
      2:{ eexists _, _. exact (path_within _ _ _ _ _ _ Hv Hs Hparse Hdelta Hle). }
      destruct (publish_answer w arn (alert_message h) SUBJECT) as [[]|e] eqn:Hpub.
      { eexists _, _. exact (path_sent _ _ _ _ _ _ Hv Hs Hparse Hdelta Hlt Hpub). }
      destruct e as [msg| | | |] eqn:He;
        try (eexists _, _;
             refine (path_publish_raises _ _ _ _ _ _ _ Hv Hs Hparse Hdelta Hlt Hpub _);
             reflexivity).
      eexists _, _.
      exact (path_publish_caught _ _ _ _ _ _ _ Hv Hs Hparse Hdelta Hlt Hpub).
    + eexists _, _. refine (path_no_timestamp _ _ _ _ Hv _).
      right. exists item. auto.
  - eexists _, _. refine (path_no_timestamp _ _ _ _ Hv _). now left.
  - destruct e as [msg| | | |] eqn:He;
      try (eexists _, _; refine (path_read_raises _ _ _ _ _ Hv Hread _);
           reflexivity).
    eexists _, _. exact (path_read_caught _ _ _ _ _ Hv Hread).
Qed.

(** The run of a world follows one of the paths. *)
Lemma path_complete w : path w (fst (invoke w)) (snd (invoke w)).
Proof.
  destruct (path_exists w) as (r & tr & Hpath).
  now rewrite (path_sound _ _ _ Hpath).
Qed.

Lemma invoke_path w r tr : invoke w = (r, tr) -> path w r tr.
Proof.
  intros H. pose proof (path_complete w) as Hp. now rewrite H in Hp.
Qed.

Ltac by_path w r tr H :=
  destruct (invoke w) as [r tr] eqn:H; apply invoke_path in H; cbn [fst snd].

(** ** What every invocation does *)

(** X1.  An invocation ends in one of the six outcome strings or in an
    exception that is not a [ClientError]: no [ClientError] of the store or
    of the topic ever leaves the handler. *)
Theorem X1_outcome_or_fault (w : world) :
  (exists s, fst (invoke w) = Returned s /\ In s OUTCOMES)
  \/ (exists e, fst (invoke w) = Raised e /\ is_ClientError e = false).
Proof.
  by_path w r tr H.
  destruct H;
    try (left; eexists; split; [reflexivity|unfold OUTCOMES; simpl; tauto]);
    right; eexists; split; try reflexivity; try assumption.
  - eapply strptime_raises; eassumption.
  - eapply timedelta_hours_raises; eassumption.
Qed.

(** X2.  The trace of an invocation starts with the print of the event,
    and its calls to AWS are: none; or one [get_item] on the table named by
    DDB_TABLE_NAME with the key [{'id': 'open'}]; or that read followed by
    one [publish] to the topic named by SNS_ARN, with the fixed subject and
    the message that carries the integer read from THRESHOLD_HOURS.  So
    there is never a second read, a second publish, or a publish without a
    read before it. *)
Theorem X2_external_calls (w : world) :
  head (snd (invoke w)) = Some (EvPrint (event_text w))
  /\ (external_calls (snd (invoke w)) = []
      \/ exists ddb_table_name,
           environ w !! "DDB_TABLE_NAME" = Some ddb_table_name
           /\ (external_calls (snd (invoke w))
               = [EvGetItem ddb_table_name OPEN_KEY]
               \/ exists sns_arn threshold_hours_env threshold_hours,
                    environ w !! "SNS_ARN" = Some sns_arn
                    /\ environ w !! "THRESHOLD_HOURS" = Some threshold_hours_env
                    /\ PyInt.int threshold_hours_env = Returned threshold_hours
                    /\ external_calls (snd (invoke w))
                       = [EvGetItem ddb_table_name OPEN_KEY;
                          EvPublish sns_arn (alert_message threshold_hours) SUBJECT])).
Proof.
  by_path w r tr H.
  destruct H as
    [ Hguard | ddb arn th e Hc Hint | ddb arn h msg Hv Hread
    | ddb arn h e Hv Hread HC | ddb arn h Hv Hs | ddb arn h v e Hv Hs Hparse
    | ddb arn h v ts e Hv Hs Hparse Hdelta
    | ddb arn h v ts Hv Hs Hparse Hdelta Hle
    | ddb arn h v ts Hv Hs Hparse Hdelta Hlt Hpub
    | ddb arn h v ts msg Hv Hs Hparse Hdelta Hlt Hpub
    | ddb arn h v ts e Hv Hs Hparse Hdelta Hlt Hpub HC ];
    (split; [reflexivity|]);
    try (left; reflexivity);
    destruct Hv as (th & (Hd & _ & Ha & _ & Ht & _) & Hint);
    right; exists ddb; (split; [exact Hd|]);
    try (left; reflexivity);
    right; exists arn, th, h; repeat split; assumption || reflexivity.
Qed.

(** X3.  "SNS notification sent" is returned exactly when the last thing
    the handler did was a publish that the topic accepted. *)
Theorem X3_sent_iff_publish_accepted (w : world) :
  fst (invoke w) = Returned SENT
  <-> exists topic_arn message subject,
        last (snd (invoke w)) = Some (EvPublish topic_arn message subject)
        /\ publish_answer w topic_arn message subject = Returned tt.
Proof.
  by_path w r tr H. split.
  - intros Hr.
    destruct H; try discriminate Hr.
    eexists _, _, _. split; [reflexivity|assumption].
  - intros (topic & message & subject & Hlast & Hans).
    destruct H; try discriminate Hlast; try reflexivity;
      cbn in Hlast; injection Hlast as <- <- <-; congruence.
Qed.

(** ** What the handler reads of its world *)

Lemma same_timestamp_refl a : same_timestamp a a.
Proof. destruct a as [[[item|]]|e]; simpl; auto. Qed.

Section Transfer.

Variables w w' : world.
Hypothesis Hevent : event_text w' = event_text w.
Hypothesis Hstore :
  forall table,
    same_timestamp (get_item_answer w table OPEN_KEY)
      (get_item_answer w' table OPEN_KEY).
Hypothesis Htopic :
  forall topic_arn message,
    publish_answer w' topic_arn message SUBJECT
    = publish_answer w topic_arn message SUBJECT.
Hypothesis Hclock : utcnow_us w' = utcnow_us w.
Hypothesis Hguard : env_guard w = true -> env_guard w' = true.
Hypothesis Hconfigured :
  forall ddb_table_name sns_arn threshold_hours_env,
    configured w ddb_table_name sns_arn threshold_hours_env ->
    exists threshold_hours_env',
      configured w' ddb_table_name sns_arn threshold_hours_env'
      /\ PyInt.int threshold_hours_env' = PyInt.int threshold_hours_env.

Lemma transfer_valid ddb_table_name sns_arn threshold_hours :
  valid_config w ddb_table_name sns_arn threshold_hours ->
  valid_config w' ddb_table_name sns_arn threshold_hours.
Proof.
  intros (th & Hc & Hint).
  destruct (Hconfigured _ _ _ Hc) as (th' & Hc' & Hint').
  exists th'. split; [exact Hc'|congruence].
Qed.

Lemma transfer_raised table e :
  get_item_answer w table OPEN_KEY = Raised e ->
  get_item_answer w' table OPEN_KEY = Raised e.
Proof.
  intros H. pose proof (Hstore table) as Hs. rewrite H in Hs.
  destruct (get_item_answer w' table OPEN_KEY) as [?|e'] eqn:H';
    simpl in Hs; [contradiction|].
  now subst.
Qed.

Lemma transfer_timestamp table v :
  store_has_timestamp w table v -> store_has_timestamp w' table v.
Proof.
  intros (item & H & Hts). pose proof (Hstore table) as Hs.
  rewrite H in Hs.
  destruct (get_item_answer w' table OPEN_KEY) as [[[item'|]]|] eqn:H';
    cbn [same_timestamp Item] in Hs; try contradiction.
  exists item'. split; [exact H'|congruence].
Qed.

Lemma transfer_no_timestamp table :
  store_has_no_timestamp w table -> store_has_no_timestamp w' table.
Proof.
  pose proof (Hstore table) as Hs.
  intros [H | (item & H & Hts)]; rewrite H in Hs;
    destruct (get_item_answer w' table OPEN_KEY) as [[[item'|]]|] eqn:H';
    cbn [same_timestamp Item] in Hs; try contradiction.
  - left. exact H'.
  - right. exists item'. split; [exact H'|congruence].
Qed.

Lemma transfer_elapsed timestamp : elapsed_us w' timestamp = elapsed_us w timestamp.
Proof. unfold elapsed_us. now rewrite Hclock. Qed.

Lemma path_transfer r tr : path w r tr -> path w' r tr.
Proof.
  intros Hpath.
  destruct Hpath as
    [ Hg | ddb arn th e Hc Hint | ddb arn h msg Hv Hread
    | ddb arn h e Hv Hread HC | ddb arn h Hv Hs | ddb arn h v e Hv Hs Hparse
    | ddb arn h v ts e Hv Hs Hparse Hdelta
    | ddb arn h v ts Hv Hs Hparse Hdelta Hle
    | ddb arn h v ts Hv Hs Hparse Hdelta Hlt Hpub
    | ddb arn h v ts msg Hv Hs Hparse Hdelta Hlt Hpub
    | ddb arn h v ts e Hv Hs Hparse Hdelta Hlt Hpub HC ];
    rewrite <- Hevent;
    try apply transfer_valid in Hv;
    try apply transfer_timestamp in Hs;
    try apply transfer_raised in Hread;
    try rewrite <- transfer_elapsed in Hlt;
    try rewrite <- transfer_elapsed in Hle;
    try rewrite <- Htopic in Hpub.
  - apply path_env_error. auto.
  - destruct (Hconfigured _ _ _ Hc) as (th' & Hc' & Hint').
    rewrite <- Hint' in Hint. exact (path_threshold_error _ _ _ _ _ Hc' Hint).
  - exact (path_read_caught _ _ _ _ _ Hv Hread).
  - exact (path_read_raises _ _ _ _ _ Hv Hread HC).
  - apply transfer_no_timestamp in Hs. exact (path_no_timestamp _ _ _ _ Hv Hs).
  - exact (path_parse_raises _ _ _ _ _ _ Hv Hs Hparse).
  - exact (path_overflow _ _ _ _ _ _ _ Hv Hs Hparse Hdelta).
  - exact (path_within _ _ _ _ _ _ Hv Hs Hparse Hdelta Hle).
  - exact (path_sent _ _ _ _ _ _ Hv Hs Hparse Hdelta Hlt Hpub).
  - exact (path_publish_caught _ _ _ _ _ _ _ Hv Hs Hparse Hdelta Hlt Hpub).
  - exact (path_publish_raises _ _ _ _ _ _ _ Hv Hs Hparse Hdelta Hlt Hpub HC).
Qed.

Lemma invoke_transfer : invoke w' = invoke w.
Proof.
  destruct (invoke w) as [r tr] eqn:H. apply invoke_path in H.
  apply path_sound. now apply path_transfer.
Qed.

End Transfer.

Lemma int_not_empty s h : PyInt.int s = Returned h -> s <> "".
Proof. intros H ->. discriminate H. Qed.

(** X4.  Staleness is monotone in time.  With everything else unchanged,
    an invocation that alerts at one reading of the clock alerts in the
    same way at every later reading, and one that finds the timestamp
    within the threshold finds it so at every earlier reading. *)
Theorem X4_alert_persists (w : world) (clock_us later_us : Z) :
  clock_us <= later_us ->
  (fst (invoke (with_clock w clock_us)) = Returned SENT ->
   invoke (with_clock w later_us) = invoke (with_clock w clock_us))
  /\ (fst (invoke (with_clock w later_us)) = Returned WITHIN ->
      invoke (with_clock w clock_us) = invoke (with_clock w later_us)).
Proof.
  intros Hle. split.
  - by_path (with_clock w clock_us) r tr H. intros Hr.
    destruct H as
      [ | | | | | | |
      | ddb arn h v ts Hv Hs Hparse Hdelta Hlt Hpub | | ]; try discriminate Hr.
    apply path_sound.
    refine (path_sent (with_clock w later_us) ddb arn h v ts Hv Hs Hparse Hdelta _ Hpub).
    unfold elapsed_us in *. cbn [with_clock utcnow_us] in *. lia.
  - by_path (with_clock w later_us) r tr H. intros Hr.
    destruct H as
      [ | | | | | |
      | ddb arn h v ts Hv Hs Hparse Hdelta Hwithin | | | ]; try discriminate Hr.
    apply path_sound.
    refine (path_within (with_clock w clock_us) ddb arn h v ts Hv Hs Hparse Hdelta _).
    unfold elapsed_us in *. cbn [with_clock utcnow_us] in *. lia.
Qed.

Lemma X4_alert_persists_witness :
  Sample.winter_noon <= Sample.winter_noon + 3600 * 1000000
  /\ fst (invoke (with_clock Sample.stale Sample.winter_noon)) = Returned SENT
  /\ invoke (with_clock Sample.stale (Sample.winter_noon + 3600 * 1000000))
     = invoke (with_clock Sample.stale Sample.winter_noon).
Proof.
  assert (Hle : Sample.winter_noon <= Sample.winter_noon + 3600 * 1000000)
    by (now vm_compute).
  assert (Hsent : fst (invoke (with_clock Sample.stale Sample.winter_noon))
                  = Returned SENT) by evaluate.
  split; [exact Hle|]. split; [exact Hsent|].
  exact (proj1 (X4_alert_persists Sample.stale _ _ Hle) Hsent).
Defined.

(** X5.  The handler uses THRESHOLD_HOURS only through the integer that
    [int()] reads from it: replacing its text by another text of the same
    integer (other spacing, sign, leading zeros or underscores) changes
    neither the outcome nor the trace, the alert message included. *)
Theorem X5_threshold_by_value
    (w : world) (threshold_hours_env other_text : string) (threshold_hours : Z) :
  environ w !! "THRESHOLD_HOURS" = Some threshold_hours_env ->
  PyInt.int threshold_hours_env = Returned threshold_hours ->
  PyInt.int other_text = Returned threshold_hours ->
  invoke (with_environ w (<[ "THRESHOLD_HOURS" := other_text ]> (environ w)))
  = invoke w.
Proof.
  intros Hth Hint Hint'.
  pose proof (int_not_empty _ _ Hint) as Hne.
  pose proof (int_not_empty _ _ Hint') as Hne'.
  apply invoke_transfer; try reflexivity.
  - intros table. apply same_timestamp_refl.
  - unfold env_guard. cbn [with_environ environ].
    rewrite !lookup_insert_ne by discriminate.
    rewrite lookup_insert_eq, Hth, !py_not_set by assumption.
    now rewrite !orb_false_r.
  - intros ddb arn th0 (Hd & Hd' & Ha & Ha' & Ht & Ht').
    assert (th0 = threshold_hours_env) by congruence. subst th0.
    exists other_text. split; [|congruence].
    unfold configured. cbn [with_environ environ].
    rewrite !lookup_insert_ne by discriminate. rewrite lookup_insert_eq.
    repeat split; assumption.
Qed.

Lemma X5_threshold_by_value_witness :
  environ Sample.stale !! "THRESHOLD_HOURS" = Some "2"
  /\ PyInt.int "2" = Returned 2
  /\ PyInt.int " +0_2 " = Returned 2
  /\ invoke (with_environ Sample.stale
               (<[ "THRESHOLD_HOURS" := " +0_2 " ]> (environ Sample.stale)))
     = invoke Sample.stale.
Proof.
  assert (H1 : environ Sample.stale !! "THRESHOLD_HOURS" = Some "2") by evaluate.
  assert (H2 : PyInt.int "2" = Returned 2) by evaluate.
  assert (H3 : PyInt.int " +0_2 " = Returned 2) by evaluate.
  split; [exact H1|]. split; [exact H2|]. split; [exact H3|].
  exact (X5_threshold_by_value Sample.stale _ _ _ H1 H2 H3).
Defined.

(** X6.  The handler reads nothing of its world but the three variables,
    the event, the answer of the store for the key [{'id': 'open'}] as far
    as its exception or the ['timestamp'] attribute of its item goes, the
    answer of the topic under the fixed subject, and the clock: two worlds
    that agree on these give the same outcome and the same trace.  Other
    variables, other attributes of the item and other keys are ignored. *)
Theorem X6_reads_only (w w' : world) :
  environ w' !! "DDB_TABLE_NAME" = environ w !! "DDB_TABLE_NAME" ->
  environ w' !! "SNS_ARN" = environ w !! "SNS_ARN" ->
  environ w' !! "THRESHOLD_HOURS" = environ w !! "THRESHOLD_HOURS" ->
  event_text w' = event_text w ->
  (forall table,
      same_timestamp (get_item_answer w table OPEN_KEY)
        (get_item_answer w' table OPEN_KEY)) ->
  (forall topic_arn message,
      publish_answer w' topic_arn message SUBJECT
      = publish_answer w topic_arn message SUBJECT) ->
  utcnow_us w' = utcnow_us w ->
  invoke w' = invoke w.
Proof.
  intros Hd Ha Ht Hevent Hstore Htopic Hclock.
  apply invoke_transfer; try assumption.
  - unfold env_guard. now rewrite Hd, Ha, Ht.
  - intros ddb arn th Hc. exists th. split; [|reflexivity].
    unfold configured in *. now rewrite Hd, Ha, Ht.
Qed.

Lemma X6_reads_only_witness :
  environ Sample.stale_with_more !! "DDB_TABLE_NAME"
  = environ Sample.stale !! "DDB_TABLE_NAME"
  /\ (forall table,
        same_timestamp (get_item_answer Sample.stale table OPEN_KEY)
          (get_item_answer Sample.stale_with_more table OPEN_KEY))
  /\ invoke Sample.stale_with_more = invoke Sample.stale.
Proof.
  assert (Hd : environ Sample.stale_with_more !! "DDB_TABLE_NAME"
               = environ Sample.stale !! "DDB_TABLE_NAME") by evaluate.
  assert (Hs : forall table,
             same_timestamp (get_item_answer Sample.stale table OPEN_KEY)
               (get_item_answer Sample.stale_with_more table OPEN_KEY))
    by (intros table; evaluate).
  split; [exact Hd|]. split; [exact Hs|].
  apply (X6_reads_only Sample.stale Sample.stale_with_more Hd);
    first [exact Hs | intros topic_arn message; reflexivity | evaluate].
Defined.

(** ** The range of the threshold *)

Lemma timedelta_hours_in_range h :
  MIN_THRESHOLD_HOURS <= h <= MAX_THRESHOLD_HOURS ->
  timedelta_hours h = Returned (threshold_us h).
Proof.
  unfold MIN_THRESHOLD_HOURS, MAX_THRESHOLD_HOURS, timedelta_hours, threshold_us.
  intros Hh.
  replace (h * 3600 * 1000000 / 86400000000) with (h / 24).
  2:{ replace (h * 3600 * 1000000) with (h * 3600000000) by lia.
      replace 86400000000 with (24 * 3600000000) by lia.
      now rewrite Z.div_mul_cancel_r by lia. }
  assert (-999999999 <= h / 24) by (apply Z.div_le_lower_bound; lia).
  assert (h / 24 < 1000000000) by (apply Z.div_lt_upper_bound; lia).
  destruct (_ && _) eqn:Hb; [reflexivity|].
  apply andb_false_iff in Hb as [Hb|Hb]; apply Z.leb_gt in Hb; lia.
Qed.

Lemma timedelta_hours_out_of_range h :
  h < MIN_THRESHOLD_HOURS \/ MAX_THRESHOLD_HOURS < h ->
  exists m, timedelta_hours h = Raised (OverflowError m).
Proof.
  unfold MIN_THRESHOLD_HOURS, MAX_THRESHOLD_HOURS, timedelta_hours.
  intros Hh.
  replace (h * 3600 * 1000000 / 86400000000) with (h / 24).
  2:{ replace (h * 3600 * 1000000) with (h * 3600000000) by lia.
      replace 86400000000 with (24 * 3600000000) by lia.
      now rewrite Z.div_mul_cancel_r by lia. }
  destruct (_ && _) eqn:Hb; [|eexists; reflexivity].
  apply andb_true_iff in Hb as [Hlo Hhi].
  apply Z.leb_le in Hlo, Hhi. exfalso.
  destruct Hh as [Hh|Hh].
  - assert (h / 24 < -999999999) by (apply Z.div_lt_upper_bound; lia). lia.
  - assert (1000000000 <= h / 24) by (apply Z.div_le_lower_bound; lia). lia.
Qed.

(** X7.  The threshold has a range.  Once the item carries a timestamp
    that parses, an integer threshold below -23999999976 or above
    23999999999 hours makes the handler raise [OverflowError] right after
    the store read, before any comparison or publish; a threshold inside
    that range never does: the handler then returns "Timestamp is within
    the threshold" or goes on to publish. *)
Theorem X7_threshold_range
    (w : world) (ddb_table_name sns_arn : string) (threshold_hours : Z)
    (v : attr) (timestamp : datetime) :
  valid_config w ddb_table_name sns_arn threshold_hours ->
  store_has_timestamp w ddb_table_name v ->
  strptime v = Returned timestamp ->
  let read := EvGetItem ddb_table_name OPEN_KEY in
  let alert := EvPublish sns_arn (alert_message threshold_hours) SUBJECT in
  (threshold_hours < MIN_THRESHOLD_HOURS \/ MAX_THRESHOLD_HOURS < threshold_hours ->
   exists m, invoke w = (Raised (OverflowError m), [EvPrint (event_text w); read]))
  /\ (MIN_THRESHOLD_HOURS <= threshold_hours <= MAX_THRESHOLD_HOURS ->
      (elapsed_us w timestamp <= threshold_us threshold_hours
       /\ invoke w = (Returned WITHIN, [EvPrint (event_text w); read]))
      \/ (threshold_us threshold_hours < elapsed_us w timestamp
          /\ external_calls (snd (invoke w)) = [read; alert])).
Proof.
  intros Hv Hs Hparse read alert. split.
  - intros Hout. destruct (timedelta_hours_out_of_range _ Hout) as (m & Hdelta).
    exists m. apply path_sound.
    exact (path_overflow _ _ _ _ _ _ _ Hv Hs Hparse Hdelta).
  - intros Hin. pose proof (timedelta_hours_in_range _ Hin) as Hdelta.
    pose proof (invoke_compares _ _ _ _ _ _ Hv Hs Hparse Hdelta) as Hinv.
    cbv zeta in Hinv. fold read alert in Hinv.
    destruct (threshold_us threshold_hours <? elapsed_us w timestamp) eqn:Hcmp.
    + right. apply Z.ltb_lt in Hcmp. split; [exact Hcmp|].
      rewrite Hinv.
      destruct (publish_answer _ _ _ _) as [[]|e]; [reflexivity|].
      destruct (is_ClientError e); reflexivity.
    + left. apply Z.ltb_ge in Hcmp. split; [exact Hcmp|exact Hinv].
Qed.

Lemma X7_threshold_range_witness :
  valid_config Sample.fresh_huge_threshold Sample.TABLE Sample.TOPIC 99999999999
  /\ store_has_timestamp Sample.fresh_huge_threshold Sample.TABLE
       (AttrS "20240115110000")
  /\ MAX_THRESHOLD_HOURS < 99999999999
  /\ exists m,
       invoke Sample.fresh_huge_threshold
       = (Raised (OverflowError m),
          [EvPrint "{}"; EvGetItem Sample.TABLE OPEN_KEY]).
Proof.
  assert (Hv : valid_config Sample.fresh_huge_threshold Sample.TABLE Sample.TOPIC
                 99999999999) by config_of "99999999999".
  assert (Hs : store_has_timestamp Sample.fresh_huge_threshold Sample.TABLE
                 (AttrS "20240115110000"))
    by (exists (Sample.item_with (AttrS "20240115110000")); split; evaluate).
  assert (Hp : strptime (AttrS "20240115110000")
               = Returned (datetime_of_fields 2024 1 15 11 0 0)) by evaluate.
  assert (Hout : MAX_THRESHOLD_HOURS < 99999999999) by (now vm_compute).
  split; [exact Hv|]. split; [exact Hs|]. split; [exact Hout|].
  exact (proj1 (X7_threshold_range _ _ _ _ _ _ Hv Hs Hp) (or_intror Hout)).
Defined.

(** ** What [strptime] accepts *)

Lemma match_groups_unfold g gs s :
  Strptime.match_groups (g :: gs) s =
  match g with
  | [] => None
  | a :: g' =>
      match Strptime.match_alternative a s with
      | Some (m, rest) =>
          match Strptime.match_groups gs rest with
          | Some (ms, r) => Some (m :: ms, r)
          | None => Strptime.match_groups (g' :: gs) s
          end
      | None => Strptime.match_groups (g' :: gs) s
      end
  end.
Proof. destruct g; reflexivity. Qed.

Lemma all_chars_app p a b :
  all_chars p a = true -> all_chars p b = true -> all_chars p (a +:+ b) = true.
Proof.
  induction a as [|c a IH]; simpl; [auto|].
  intros Ha Hb. apply andb_true_iff in Ha as [Hc Ha].
  now rewrite Hc, IH.
Qed.

Lemma length_app_string a b :
  String.length (a +:+ b) = (String.length a + String.length b)%nat.
Proof. induction a as [|c a IH]; simpl; [reflexivity|now rewrite IH]. Qed.

Lemma app_string_assoc a b c : (a +:+ b) +:+ c = a +:+ (b +:+ c).
Proof.
  induction a as [|x a IH]; [reflexivity|].
  change (String x ((a +:+ b) +:+ c) = String x (a +:+ (b +:+ c))).
  now rewrite IH.
Qed.

(** An alternative reads as many characters as it has classes, each
    accepted by its class. *)
Lemma match_alternative_reads a s m rest :
  Strptime.match_alternative a s = Some (m, rest) ->
  s = m +:+ rest /\ String.length m = length a
  /\ (Forall class_ok a -> all_chars digit_or_space m = true).
Proof.
  revert s m rest. induction a as [|k a IH]; intros s m rest; simpl.
  - intros [= <- <-]. auto.
  - destruct s as [|c r]; [discriminate|].
    destruct (k c) eqn:Hk; [|discriminate].
    destruct (Strptime.match_alternative a r) as [[m' rest']|] eqn:Hm; [|discriminate].
    intros [= <- <-]. destruct (IH _ _ _ Hm) as (-> & Hlen & Hok).
    split; [reflexivity|]. split; [simpl; now rewrite Hlen|].
    intros Hall. inversion Hall as [|? ? Hck Hall']; subst.
    simpl. rewrite (Hck _ Hk). now apply Hok.
Qed.

(** The groups read a prefix of the string: one text for each group, as
    long as one of the alternatives of its group. *)
Lemma match_groups_reads gs :
  Forall (Forall (Forall class_ok)) gs ->
  forall s ms rest,
    Strptime.match_groups gs s = Some (ms, rest) ->
    exists consumed,
      s = consumed +:+ rest
      /\ all_chars digit_or_space consumed = true
      /\ String.length consumed = total_length ms
      /\ Forall2 (fun g m => exists a, In a g /\ String.length m = length a) gs ms.
Proof.
  induction gs as [|g gs IH]; intros Hok s ms rest.
  - simpl. intros [= <- <-]. exists EmptyString. repeat split; constructor.
  - inversion Hok as [|? ? Hg Hgs]; subst.
    specialize (IH Hgs).
    assert (Hsub : forall g0, incl g0 g ->
      Strptime.match_groups (g0 :: gs) s = Some (ms, rest) ->
      exists consumed,
        s = consumed +:+ rest
        /\ all_chars digit_or_space consumed = true
        /\ String.length consumed = total_length ms
        /\ Forall2 (fun g m => exists a, In a g /\ String.length m = length a)
             (g :: gs) ms).
    { induction g0 as [|a g0 IHg]; intros Hincl; rewrite match_groups_unfold;
        [discriminate|].
      assert (Hin : In a g) by (apply Hincl; now left).
      assert (Hincl' : incl g0 g) by (intros x Hx; apply Hincl; now right).
      destruct (Strptime.match_alternative a s) as [[m r]|] eqn:Hm; [|now apply IHg].
      destruct (Strptime.match_groups gs r) as [[ms' r']|] eqn:Hrest; [|now apply IHg].
      intros [= <- <-].
      destruct (match_alternative_reads _ _ _ _ Hm) as (-> & Hlen & Hchars).
      destruct (IH _ _ _ Hrest) as (consumed & -> & Hc & Hl & Hf).
      exists (m +:+ consumed). split; [symmetry; apply app_string_assoc|].
      split.
      { apply all_chars_app; [|exact Hc]. apply Hchars.
        apply (proj1 (Forall_forall _ _) Hg). now apply list_elem_of_In. }
      split; [rewrite length_app_string, Hl; reflexivity|].
      constructor; [|exact Hf]. exists a. split; [exact Hin|exact Hlen]. }
    apply Hsub. apply incl_refl.
Qed.

Lemma format_regex_ok : Forall (Forall (Forall class_ok)) Strptime.format_regex.
Proof.
  unfold Strptime.format_regex, Strptime.re_Y, Strptime.re_m, Strptime.re_d,
    Strptime.re_H, Strptime.re_M, Strptime.re_S.
  repeat constructor;
    intros c; destruct c as [[] [] [] [] [] [] [] []]; vm_compute;
    intros H; first [discriminate H | reflexivity].
Qed.

Lemma app_string_empty a : a +:+ "" = a.
Proof.
  induction a as [|x a IH]; [reflexivity|].
  change (String x (a +:+ "") = String x a). now rewrite IH.
Qed.

(** What [strptime] accepts has nine to fourteen characters, all of them
    digits or spaces. *)
Lemma strptime_str_accepts s timestamp :
  Strptime.strptime_str s = Returned timestamp ->
  all_chars digit_or_space s = true
  /\ (9 <= String.length s <= 14)%nat.
Proof.
  unfold Strptime.strptime_str, Strptime.fields.
  destruct (Strptime.match_groups Strptime.format_regex s) as [[ms rest]|] eqn:Hm;
    [|discriminate].
  destruct rest; [|discriminate]. intros _.
  destruct (match_groups_reads _ format_regex_ok _ _ _ Hm)
    as (consumed & -> & Hchars & Hlen & Hf).
  rewrite app_string_empty. split; [exact Hchars|]. rewrite Hlen.
  unfold Strptime.format_regex in Hf.
  repeat match goal with
         | H : Forall2 _ (_ :: _) _ |- _ => inversion H; clear H; subst
         | H : Forall2 _ [] _ |- _ => inversion H; clear H; subst
         end.
  repeat match goal with
         | H : exists a, In a _ /\ _ |- _ =>
             let Hin := fresh "Hin" in
             let Hl := fresh "Hl" in
             destruct H as (? & Hin & Hl); cbn in Hin;
             repeat (destruct Hin as [<- | Hin]); try contradiction
         end;
    cbn [total_length fold_right length] in *; lia.
Qed.

(** X8.  A stored timestamp that has a character other than a digit or a
    space, or fewer than nine or more than fourteen characters, makes the
    handler raise [ValueError] right after the store read: no outcome
    string is returned and nothing is published. *)
Theorem X8_garbled_timestamp_raises
    (w : world) (ddb_table_name sns_arn : string) (threshold_hours : Z)
    (timestamp_str : string) :
  valid_config w ddb_table_name sns_arn threshold_hours ->
  store_has_timestamp w ddb_table_name (AttrS timestamp_str) ->
  all_chars digit_or_space timestamp_str = false
  \/ (String.length timestamp_str < 9)%nat
  \/ (14 < String.length timestamp_str)%nat ->
  exists m,
    invoke w = (Raised (ValueError m),
                [EvPrint (event_text w); EvGetItem ddb_table_name OPEN_KEY]).
Proof.
  intros Hv Hs Hbad.
  destruct (strptime (AttrS timestamp_str)) as [ts|e] eqn:Hparse.
  - exfalso. apply strptime_str_accepts in Hparse as [Hchars Hlen].
    destruct Hbad as [Hbad | [Hbad | Hbad]]; [congruence|lia|lia].
  - pose proof (strptime_str_raises _ _ Hparse) as He.
    destruct e as [|?|m| |?]; try discriminate He.
    exists m. apply path_sound.
    exact (path_parse_raises _ _ _ _ _ _ Hv Hs Hparse).
Qed.

Lemma X8_garbled_timestamp_raises_witness :
  valid_config Sample.malformed Sample.TABLE Sample.TOPIC 2
  /\ store_has_timestamp Sample.malformed Sample.TABLE (AttrS "2024-01-15 09:00")
  /\ all_chars digit_or_space "2024-01-15 09:00" = false
  /\ exists m,
       invoke Sample.malformed
       = (Raised (ValueError m), [EvPrint "{}"; EvGetItem Sample.TABLE OPEN_KEY]).
Proof.
  assert (Hv : valid_config Sample.malformed Sample.TABLE Sample.TOPIC 2)
    by config_of "2".
  assert (Hs : store_has_timestamp Sample.malformed Sample.TABLE
                 (AttrS "2024-01-15 09:00"))
    by (exists (Sample.item_with (AttrS "2024-01-15 09:00")); split; evaluate).
  assert (Hbad : all_chars digit_or_space "2024-01-15 09:00" = false) by evaluate.
  split; [exact Hv|]. split; [exact Hs|]. split; [exact Hbad|].
  exact (X8_garbled_timestamp_raises _ _ _ _ _ Hv Hs (or_introl Hbad)).
Defined.

(** ** Well-formed timestamps *)

(** When the first alternative that matches lets the rest of the pattern
    match, the search takes it. *)
Lemma match_groups_hit g gs s m rest ms r :
  first_hit g s = Some (m, rest) ->
  Strptime.match_groups gs rest = Some (ms, r) ->
  Strptime.match_groups (g :: gs) s = Some (m :: ms, r).
Proof.
  intros Hhit Hrest. induction g as [|a g IH]; [discriminate Hhit|].
  rewrite match_groups_unfold. cbn [first_hit] in Hhit.
  destruct (Strptime.match_alternative a s) as [[m' rest']|].
  - injection Hhit as -> ->. now rewrite Hrest.
  - now apply IH.
Qed.

(** A property of every integer of a range, from the list of its cases. *)
Lemma Z_range_cases (P : Z -> Prop) (lo : Z) (len : nat) :
  Forall P (map (fun i => lo + Z.of_nat i) (seq 0 len)) ->
  forall z, lo <= z < lo + Z.of_nat len -> P z.
Proof.
  intros Hall z Hz. rewrite Forall_forall in Hall. apply Hall.
  apply list_elem_of_In, in_map_iff. exists (Z.to_nat (z - lo)).
  split; [lia|]. apply in_seq. lia.
Qed.

Ltac by_cases lo len :=
  match goal with
  | |- forall z, _ -> @?P z =>
      apply (Z_range_cases P lo len);
      cbv [seq map]; repeat constructor
  end.

Lemma is_digit_digit_char k : 0 <= k < 10 -> is_digit (digit_char k) = true.
Proof. revert k. by_cases 0 10%nat. Qed.

Lemma hit_year y rest :
  0 <= y < 10000 ->
  first_hit Strptime.re_Y (digits4 y +:+ rest) = Some (digits4 y, rest).
Proof.
  intros Hy.
  assert (H1 : 0 <= y / 1000 < 10)
    by (split; [apply Z.div_pos|apply Z.div_lt_upper_bound]; lia).
  assert (H2 : 0 <= y / 100 mod 10 < 10) by (apply Z.mod_pos_bound; lia).
  assert (H3 : 0 <= y mod 100 / 10 < 10).
  { pose proof (Z.mod_pos_bound y 100 ltac:(lia)).
    split; [apply Z.div_pos|apply Z.div_lt_upper_bound]; lia. }
  assert (H4 : 0 <= y mod 100 mod 10 < 10) by (apply Z.mod_pos_bound; lia).
  cbv [digits4 digits2 String.append first_hit Strptime.re_Y
         Strptime.match_alternative Strptime.d].
  now rewrite !is_digit_digit_char by assumption.
Qed.

Lemma hit_month n :
  1 <= n < 13 ->
  forall rest, first_hit Strptime.re_m (digits2 n +:+ rest) = Some (digits2 n, rest).
Proof. revert n. by_cases 1 12%nat; intros rest; reflexivity. Qed.

Lemma hit_day n :
  1 <= n < 32 ->
  forall rest, first_hit Strptime.re_d (digits2 n +:+ rest) = Some (digits2 n, rest).
Proof. revert n. by_cases 1 31%nat; intros rest; reflexivity. Qed.

Lemma hit_hour n :
  0 <= n < 24 ->
  forall rest, first_hit Strptime.re_H (digits2 n +:+ rest) = Some (digits2 n, rest).
Proof. revert n. by_cases 0 24%nat; intros rest; reflexivity. Qed.

Lemma hit_minute n :
  0 <= n < 60 ->
  forall rest, first_hit Strptime.re_M (digits2 n +:+ rest) = Some (digits2 n, rest).
Proof. revert n. by_cases 0 60%nat; intros rest; reflexivity. Qed.

Lemma hit_second n :
  0 <= n < 60 ->
  forall rest, first_hit Strptime.re_S (digits2 n +:+ rest) = Some (digits2 n, rest).
Proof. revert n. by_cases 0 60%nat; intros rest; reflexivity. Qed.

Lemma int_digits2 n : 0 <= n < 100 -> PyInt.int (digits2 n) = Returned n.
Proof. revert n. by_cases 0 100%nat; reflexivity. Qed.

Lemma int_digits4 y : 0 <= y < 10000 -> PyInt.int (digits4 y) = Returned y.
Proof.
  intros Hy.
  assert (Hall :
    forallb (fun i => match PyInt.int (digits4 (Z.of_nat i)) with
                      | Returned v => v =? Z.of_nat i
                      | Raised _ => false
                      end) (seq 0 (Z.to_nat 10000)) = true)
    by (vm_compute; reflexivity).
  rewrite forallb_forall in Hall.
  specialize (Hall (Z.to_nat y)). rewrite Z2Nat.id in Hall by lia.
  destruct (PyInt.int (digits4 y)) as [v|e].
  - f_equal. apply Z.eqb_eq. apply Hall. apply in_seq. lia.
  - discriminate Hall. apply in_seq. lia.
Qed.

Lemma valid_date_ranges year month day :
  Calendar.valid_date year month day = true ->
  1 <= year < 10000 /\ 1 <= month < 13 /\ 1 <= day < 32.
Proof.
  unfold Calendar.valid_date, Calendar.MINYEAR, Calendar.MAXYEAR. intros H.
  repeat (apply andb_true_iff in H as [H ?]).
  repeat match goal with
         | H : (_ <=? _) = true |- _ => apply Z.leb_le in H
         end.
  assert (Hm : Calendar.days_in_month year month <= 31).
  { assert (Hcases : month = 1 \/ month = 2 \/ month = 3 \/ month = 4
                     \/ month = 5 \/ month = 6 \/ month = 7 \/ month = 8
                     \/ month = 9 \/ month = 10 \/ month = 11 \/ month = 12) by lia.
    repeat (destruct Hcases as [-> | Hcases]); try subst month;
      cbn [Calendar.days_in_month]; try destruct (Calendar.is_leap year); lia. }
  lia.
Qed.

(** X9.  The fourteen digits [YYYYMMDDHHMMSS] of a date that exists and a
    time of day parse to that date and time: on a well-formed timestamp
    line 63 raises nothing. *)
Theorem X9_well_formed_timestamp_parses (year month day hour minute second : Z) :
  Calendar.valid_date year month day = true ->
  0 <= hour < 24 -> 0 <= minute < 60 -> 0 <= second < 60 ->
  strptime (AttrS (timestamp_text year month day hour minute second))
  = Returned (datetime_of_fields year month day hour minute second).
Proof.
  intros Hdate Hh Hm Hs.
  destruct (valid_date_ranges _ _ _ Hdate) as (Hy & Hmo & Hd).
  assert (Hmatch :
    Strptime.match_groups Strptime.format_regex
      (timestamp_text year month day hour minute second)
    = Some ([digits4 year; digits2 month; digits2 day;
             digits2 hour; digits2 minute; digits2 second], "")).
  { unfold timestamp_text, Strptime.format_regex.
    rewrite <- (app_string_empty (digits2 second)).
    eapply match_groups_hit; [apply hit_year; lia|].
    eapply match_groups_hit; [apply hit_month; lia|].
    eapply match_groups_hit; [apply hit_day; lia|].
    eapply match_groups_hit; [apply hit_hour; lia|].
    eapply match_groups_hit; [apply hit_minute; lia|].
    eapply match_groups_hit; [apply hit_second; lia|].
    reflexivity. }
  unfold strptime, Strptime.strptime_str, Strptime.fields.
  rewrite Hmatch. cbn [map].
  rewrite int_digits4, !int_digits2 by lia.
  rewrite Hdate. cbn [negb].
  replace (second <=? 59) with true by (symmetry; apply Z.leb_le; lia).
  reflexivity.
Qed.

Lemma X9_well_formed_timestamp_parses_witness :
  Calendar.valid_date 2024 2 29 = true
  /\ timestamp_text 2024 2 29 23 59 59 = "20240229235959"
  /\ strptime (AttrS "20240229235959")
     = Returned (datetime_of_fields 2024 2 29 23 59 59).
Proof.
  split; [reflexivity|]. split; [reflexivity|].
  apply (X9_well_formed_timestamp_parses 2024 2 29 23 59 59); [reflexivity|lia..].
Defined.

(** ** The script *)

Lemma path_ends w r tr :
  path w r tr ->
  head tr = Some (EvPrint (event_text w))
  /\ ((exists s, r = Returned s /\ In s OUTCOMES)
      \/ (exists e, r = Raised e /\ is_ClientError e = false)).
Proof.
  intros H. split; [destruct H; reflexivity|].
  destruct H;
    try (left; eexists; split; [reflexivity|unfold OUTCOMES; simpl; tauto]);
    right; eexists; split; try reflexivity; try assumption.
  - eapply strptime_raises; eassumption.
  - eapply timedelta_hours_raises; eassumption.
Qed.

(** X10.  Run as a script, the program logs the event [None] first and
    then does what the handler does; when the handler returns, its outcome,
    one of the six strings, is printed last and the calls to AWS are those
    of the handler; when the handler raises, the exception, never a
    [ClientError], ends the script with nothing more printed. *)
Theorem X10_script_prints_the_outcome (w : world) :
  head (snd (run_main w)) = Some (EvPrint "None")
  /\ ((exists s tr,
         invoke (with_event_text w "None") = (Returned s, tr)
         /\ In s OUTCOMES
         /\ run_main w = (Returned tt, (tr ++ [EvPrint s])%list)
         /\ external_calls (snd (run_main w)) = external_calls tr)
      \/ (exists e tr,
            invoke (with_event_text w "None") = (Raised e, tr)
            /\ is_ClientError e = false
            /\ run_main w = (Raised e, tr))).
Proof.
  pose proof (path_ends _ _ _ (path_complete (with_event_text w "None")))
    as (Hhead & Hout).
  unfold run_main, main, bind, print, emit.
  fold (invoke (with_event_text w "None")).
  destruct (invoke (with_event_text w "None")) as [[s|e] tr] eqn:Hinv;
    cbn [fst snd with_event_text event_text] in *.
  - split; [destruct tr; [discriminate Hhead|exact Hhead]|].
    left. exists s, tr. split; [reflexivity|].
    split; [destruct Hout as [(s' & [= <-] & Hin) | (e & [=] & _)]; exact Hin|].
    split; [reflexivity|].
    unfold external_calls. rewrite List.filter_app. cbn. apply app_nil_r.
  - split; [exact Hhead|].
    right. exists e, tr. split; [reflexivity|].
    split; [destruct Hout as [(s' & [=] & _) | (e' & [= <-] & HC)]; exact HC|].
    reflexivity.
Qed.

(** ** What an outcome tells *)


(** X12.  A timestamp that is not in the past is never alerted on when the
    threshold is not negative: with a threshold between 0 and 23999999999
    hours and a stored timestamp whose instant, as the handler reads it, is
    the current instant or a later one, the handler returns "Timestamp is
    within the threshold" and publishes nothing. *)
Theorem X12_future_timestamp_is_within
    (w : world) (ddb_table_name sns_arn : string) (threshold_hours : Z)
    (v : attr) (timestamp : datetime) :
  valid_config w ddb_table_name sns_arn threshold_hours ->
  store_has_timestamp w ddb_table_name v ->
  strptime v = Returned timestamp ->
  0 <= threshold_hours <= MAX_THRESHOLD_HOURS ->
  utcnow_us w <= handler_instant timestamp ->
  invoke w = (Returned WITHIN,
              [EvPrint (event_text w); EvGetItem ddb_table_name OPEN_KEY])
  /\ count_events is_publish (snd (invoke w)) = 0%nat.
Proof.
  intros Hv Hs Hparse Hh Hfuture.
  assert (Hdelta : timedelta_hours threshold_hours
                   = Returned (threshold_us threshold_hours))
    by (apply timedelta_hours_in_range; unfold MIN_THRESHOLD_HOURS; lia).
  assert (Hle : elapsed_us w timestamp <= threshold_us threshold_hours)
    by (unfold elapsed_us, threshold_us; lia).
  rewrite (path_sound _ _ _ (path_within _ _ _ _ _ _ Hv Hs Hparse Hdelta Hle)).
  split; reflexivity.
Qed.

Lemma X12_future_timestamp_is_within_witness :
  valid_config Sample.threshold_zero Sample.TABLE Sample.TOPIC 0
  /\ utcnow_us (with_clock Sample.threshold_zero (Sample.clock 2024 1 15 16 0 0))
     <= handler_instant (datetime_of_fields 2024 1 15 11 0 0)
  /\ invoke (with_clock Sample.threshold_zero (Sample.clock 2024 1 15 16 0 0))
     = (Returned WITHIN, [EvPrint "{}"; EvGetItem Sample.TABLE OPEN_KEY]).
Proof.
  assert (Hv : valid_config
                 (with_clock Sample.threshold_zero (Sample.clock 2024 1 15 16 0 0))
                 Sample.TABLE Sample.TOPIC 0) by config_of "0".
  assert (Hs : store_has_timestamp
                 (with_clock Sample.threshold_zero (Sample.clock 2024 1 15 16 0 0))
                 Sample.TABLE (AttrS "20240115110000"))
    by (exists (Sample.item_with (AttrS "20240115110000")); split; evaluate).
  assert (Hp : strptime (AttrS "20240115110000")
               = Returned (datetime_of_fields 2024 1 15 11 0 0)) by evaluate.
  assert (Hf : utcnow_us (with_clock Sample.threshold_zero
                            (Sample.clock 2024 1 15 16 0 0))
               <= handler_instant (datetime_of_fields 2024 1 15 11 0 0))
    by (now vm_compute).
  split; [exact Hv|]. split; [exact Hf|].
  refine (proj1 (X12_future_timestamp_is_within _ _ _ _ _ _ Hv Hs Hp _ Hf)).
  now vm_compute.
Defined.
